(** * dagster-components: the [generate] scaffolding commands

    A shallow embedding of
      - [dagster_components/generate.py]      (the four generators and the
        YAML dumper [ComponentDumper]), and
      - [dagster_components/cli/generate.py]  (the four click commands),
    together with the properties of the specification that concern them.

    Python values are trees ([value]); the process is a [World] (file system,
    working directory, echoed output) threaded through a small
    state-and-error monad [M] whose outcomes are a normal return, a
    [sys.exit] or a raised exception.  Strings are sequences of 8-bit
    characters (code points below 256); floats are not modelled. *)

From Stdlib Require Import ZArith Ascii String.
From stdpp Require Import base option strings list sorting gmap pretty.

#[local] Set Warnings "-register-all".

Local Open Scope Z_scope.

(* ===================================================================== *)
(** * Python values *)
(* ===================================================================== *)

(** The data that flows through the generators: JSON-like Python values.
    A [dict] keeps its insertion order, hence the association list. *)
Inductive value : Type :=
  | VNone
  | VBool (b : bool)
  | VInt (n : Z)
  | VStr (s : string)
  | VList (items : list value)
  | VDict (entries : list (string * value)).

(** Python truthiness: [if v], [v or d]. *)
Definition truthy (v : value) : bool :=
  match v with
  | VNone => false
  | VBool b => b
  | VInt n => negb (n =? 0)
  | VStr s => negb (bool_decide (s = ""))
  | VList items => negb (bool_decide (items = []))
  | VDict entries => negb (bool_decide (entries = []))
  end.

(** [a or b] *)
Definition py_or (a b : value) : value := if truthy a then a else b.

(** The hook contract [Optional[Mapping[str, Any]]]. *)
Definition is_mapping (v : value) : bool :=
  match v with VDict _ => true | _ => false end.

Definition is_optional_mapping (v : value) : bool :=
  match v with VNone | VDict _ => true | _ => false end.

(* ===================================================================== *)
(** * Characters and strings *)
(* ===================================================================== *)

Definition LF : string := String "010"%char "".
Definition ESC : string := String "027"%char "".

(** [''.join(chunks)] *)
Definition flush (chunks : list string) : string := foldr String.app "" chunks.

(** [' ' * n] *)
Fixpoint spaces (n : nat) : string :=
  match n with
  | O => ""
  | S n' => String " "%char (spaces n')
  end.

(** [s.split(sep)] for a one-character separator. *)
Fixpoint split_on (sep : ascii) (s : string) : list string :=
  match s with
  | "" => [""]
  | String c s' =>
      if decide (c = sep) then "" :: split_on sep s'
      else match split_on sep s' with
           | h :: t => String c h :: t
           | [] => [String c ""]
           end
  end.

(** [sep.join(parts)] *)
Fixpoint join_with (sep : string) (parts : list string) : string :=
  match parts with
  | [] => ""
  | [p] => p
  | p :: rest => p +:+ sep +:+ join_with sep rest
  end.

(** [s.startswith('/')] *)
Definition starts_with_slash (s : string) : bool :=
  match s with
  | String "/"%char _ => true
  | _ => false
  end.

(** [s.endswith('/')] *)
Fixpoint ends_with_slash (s : string) : bool :=
  match s with
  | "" => false
  | String c "" => bool_decide (c = "/"%char)
  | String _ s' => ends_with_slash s'
  end.

(** the number of leading ['/'] characters *)
Fixpoint leading_slashes (s : string) : nat :=
  match s with
  | String "/"%char s' => S (leading_slashes s')
  | _ => O
  end.

(* ===================================================================== *)
(** * PyYAML: representation graph and emitter *)
(* ===================================================================== *)

(** [yaml.dump(data, f, Dumper=ComponentDumper, sort_keys=False,
    default_flow_style=False)] runs PyYAML's representer (values to nodes)
    and emitter (nodes to text).  The emitter is modelled as far as
    [ComponentDumper.write_line_break] can observe it: indentation, column
    and the two layout flags, block collections, the flow form of empty
    collections, simple and complex mapping keys.

    What PyYAML calls anchors, tags, explicit document markers and the
    canonical form do not arise for the values above with the arguments
    given, and are left out. *)

Inductive yaml_tag : Type := tag_null | tag_bool | tag_int | tag_str.

Record scalar : Type := Scalar { sc_tag : yaml_tag; sc_value : string }.

Inductive node : Type :=
  | NScalar (s : scalar)
  | NSequence (items : list node)
  | NMapping (entries : list (scalar * node)).

(** [sorted(mapping)] on the [(key, value)] pairs of a [dict] with string
    keys: ordered by key (the keys of a [dict] are distinct, so the values
    are never compared). *)
Definition entry_le {A : Type} (x y : string * A) : Prop := String.le x.1 y.1.

Global Instance entry_le_dec {A : Type} : RelDecision (@entry_le A).
Proof. intros x y. unfold entry_le. apply _. Defined.

(** [SafeRepresenter]: [represent_none], [represent_bool], [represent_int],
    [represent_str], [represent_list], [represent_dict].  In
    [represent_mapping] the items are sorted by key when [sort_keys] is set;
    here the values are represented first and the pairs ordered afterwards,
    which gives the same list of entries. *)
Fixpoint represent (sort_keys : bool) (v : value) : node :=
  match v with
  | VNone => NScalar (Scalar tag_null "null")
  | VBool b => NScalar (Scalar tag_bool (if b then "true" else "false"))
  | VInt n => NScalar (Scalar tag_int (pretty n))
  | VStr s => NScalar (Scalar tag_str s)
  | VList items => NSequence (map (represent sort_keys) items)
  | VDict entries =>
      let items :=
        map (fun '(k, v) => (k, represent sort_keys v)) entries in
      NMapping
        (map (fun '(k, n) => (Scalar tag_str k, n))
             (if sort_keys then merge_sort entry_le items else items))
  end.

(** The emitter state ([yaml.emitter.Emitter]); [stream] holds the chunks
    handed to [self.stream.write], oldest first. *)
Record Emitter : Type := MkEmitter {
  indent : option nat;
  column : nat;
  whitespace : bool;
  indention : bool;
  stream : list string
}.

Definition set_indent (i : option nat) (e : Emitter) : Emitter :=
  MkEmitter i (column e) (whitespace e) (indention e) (stream e).

Definition best_indent : nat := 2.
Definition best_line_break : string := LF.

(** [Emitter.__init__] *)
Definition initial_emitter : Emitter :=
  MkEmitter None 0 true true [].

(** [Emitter.write_line_break(self, data=None)] of the base class. *)
Definition Emitter_write_line_break (e : Emitter) : Emitter :=
  MkEmitter (indent e) 0 true true (stream e ++ [best_line_break]).

(** A dumper class: the emitter with its overridable [write_line_break]. *)
Class Dumper : Type := { write_line_break : Emitter -> Emitter }.

(** [yaml.Dumper] *)
Definition yaml_Dumper : Dumper :=
  {| write_line_break := Emitter_write_line_break |}.

(** generate.py, lines 13-18:
<<
class ComponentDumper(yaml.Dumper):
    def write_line_break(self) -> None:
        # add an extra line break between top-level keys
        if self.indent == 0:
            super().write_line_break()
        super().write_line_break()
>> *)
Definition ComponentDumper_write_line_break (e : Emitter) : Emitter :=
  let e := if decide (indent e = Some 0%nat)
           then Emitter_write_line_break e else e in
  Emitter_write_line_break e.

Definition ComponentDumper : Dumper :=
  {| write_line_break := ComponentDumper_write_line_break |}.

(** [Emitter.write_indent] *)
Definition write_indent `{D : Dumper} (e : Emitter) : Emitter :=
  let ind := default 0%nat (indent e) in
  let e := if negb (indention e)
              || (ind <? column e)%nat
              || ((column e =? ind)%nat && negb (whitespace e))
           then write_line_break e else e in
  if (column e <? ind)%nat
  then MkEmitter (indent e) ind true (indention e)
         (stream e ++ [spaces (ind - column e)])
  else e.

(** [Emitter.write_indicator(indicator, need_whitespace, whitespace=False,
    indention=False)] *)
Definition write_indicator (indicator : string) (need_whitespace : bool)
    (ws indn : bool) (e : Emitter) : Emitter :=
  let data := if whitespace e || negb need_whitespace
              then indicator else " " +:+ indicator in
  MkEmitter (indent e) (column e + String.length data) ws
    (indention e && indn) (stream e ++ [data]).

(** [Emitter.increase_indent(flow=False, indentless=False)]; the saved
    indentation ([self.indents]) is kept by the caller. *)
Definition increase_indent (flow indentless : bool) (e : Emitter) : Emitter :=
  match indent e with
  | None => set_indent (Some (if flow then best_indent else 0%nat)) e
  | Some n => if indentless then e else set_indent (Some (n + best_indent)%nat) e
  end.

(** [analysis.multiline]: the scalar contains a line break. *)
Fixpoint multiline (s : string) : bool :=
  match s with
  | "" => false
  | String c s' =>
      bool_decide (c = "010"%char) || bool_decide (c = "133"%char) || multiline s'
  end.

(** [Emitter.prepare_tag] on the tags of the representer: the handle
    [!!] stands for the prefix [tag:yaml.org,2002:]. *)
Definition prepare_tag (t : yaml_tag) : string :=
  match t with
  | tag_null => "!!null"
  | tag_bool => "!!bool"
  | tag_int => "!!int"
  | tag_str => "!!str"
  end.

(** [Emitter.check_simple_key] for a scalar key without anchor: the length
    is that of the prepared tag plus that of the scalar, whether or not
    the tag is written afterwards. *)
Definition check_simple_key (k : scalar) : bool :=
  (String.length (prepare_tag (sc_tag k)) + String.length (sc_value k) <? 128)%nat
  && negb (bool_decide (sc_value k = ""))
  && negb (multiline (sc_value k)).

(** The column after [text] has been written from column [col]. *)
Fixpoint column_after (col : nat) (text : string) : nat :=
  match text with
  | "" => col
  | String c text' =>
      column_after (if bool_decide (c = "010"%char) then 0%nat else S col) text'
  end.

Section Emitter.

(** How PyYAML presents one scalar ([analyze_scalar], [choose_scalar_style]
    and the [write_plain] / [write_single_quoted] / [write_double_quoted]
    writers): the text that follows the separating space, given whether
    the scalar is a simple key, the indentation and the column.  The
    writers run inside [expect_scalar], where the indentation is at least
    [best_indent]. *)
Variable present_scalar : bool -> nat -> nat -> scalar -> string.

Context `{D : Dumper}.

(** [Emitter.process_scalar]: every writer first separates the scalar
    from what precedes it and leaves both layout flags cleared. *)
Definition process_scalar (simple_key : bool) (s : scalar) (e : Emitter)
    : Emitter :=
  let e := if whitespace e then e
           else MkEmitter (indent e) (column e + 1) (whitespace e)
                  (indention e) (stream e ++ [" "]) in
  let text := present_scalar simple_key (default 0%nat (indent e)) (column e) s in
  MkEmitter (indent e) (column_after (column e) text) false false
    (stream e ++ [text]).

(** [Emitter.expect_scalar] *)
Definition expect_scalar (simple_key : bool) (s : scalar) (e : Emitter)
    : Emitter :=
  let saved := indent e in
  let e := increase_indent true false e in
  let e := process_scalar simple_key s e in
  set_indent saved e.

(** [expect_flow_sequence] / [expect_flow_mapping] followed at once by
    the end event: the only flow collections met are the empty ones. *)
Definition expect_empty_flow (opening closing : string) (e : Emitter)
    : Emitter :=
  let saved := indent e in
  let e := write_indicator opening true true false e in
  let e := increase_indent true false e in
  let e := set_indent saved e in
  write_indicator closing false false false e.

(** [Emitter.expect_block_sequence_item] for one item; [expect] is
    [expect_node], which the item re-enters. *)
Definition expect_block_sequence_item
    (expect : bool -> bool -> node -> Emitter -> Emitter)
    (e : Emitter) (item : node) : Emitter :=
  let e := write_indent e in
  let e := write_indicator "-" true false true e in
  expect false false item e.

(** [Emitter.expect_block_mapping_key] for one entry, followed by
    [expect_block_mapping_simple_value] or [expect_block_mapping_value]. *)
Definition expect_block_mapping_key
    (expect : bool -> bool -> node -> Emitter -> Emitter)
    (e : Emitter) (kv : scalar * node) : Emitter :=
  let e := write_indent e in
  if check_simple_key kv.1 then
    let e := expect_scalar true kv.1 e in
    let e := write_indicator ":" false false false e in
    expect true false kv.2 e
  else
    let e := write_indicator "?" true false true e in
    let e := expect_scalar false kv.1 e in
    let e := write_indent e in
    let e := write_indicator ":" true false true e in
    expect true false kv.2 e.

(** [Emitter.expect_node]: a scalar, an empty collection (flow form), a
    block sequence ([expect_block_sequence]) or a block mapping
    ([expect_block_mapping]). *)
Fixpoint expect_node (mapping_context simple_key : bool) (n : node)
    (e : Emitter) : Emitter :=
  match n with
  | NScalar s => expect_scalar simple_key s e
  | NSequence [] => expect_empty_flow "[" "]" e
  | NSequence items =>
      let saved := indent e in
      let indentless := mapping_context && negb (indention e) in
      let e := increase_indent false indentless e in
      let e := foldl (expect_block_sequence_item expect_node) e items in
      set_indent saved e
  | NMapping [] => expect_empty_flow "{" "}" e
  | NMapping entries =>
      let saved := indent e in
      let e := increase_indent false false e in
      let e := foldl (expect_block_mapping_key expect_node) e entries in
      set_indent saved e
  end.

(** [yaml.dump(data, ...)] for a [dict]: stream start, implicit document
    start, the root node, document end, stream end. *)
Definition yaml_dump (sort_keys : bool) (data : list (string * value))
    : string :=
  let e := expect_node false false (represent sort_keys (VDict data))
             initial_emitter in
  let e := write_indent e in
  flush (stream e).

End Emitter.



(** The scalar a value is represented by, if it is one. *)
Definition scalar_of (v : value) : option scalar :=
  match represent false v with
  | NScalar s => Some s
  | _ => None
  end.



(** The emitter [e] with [pre] written before everything else. *)
Definition prepend (pre : list string) (e : Emitter) : Emitter :=
  MkEmitter (indent e) (column e) (whitespace e) (indention e) (pre ++ stream e).

(** [yaml.dump(data, stream, ...)] on a stream that already holds
    [written]: the dumper is a new object, its emitter starts in the
    initial state whatever the stream holds, and what it writes goes
    after what is there. *)
Definition yaml_dump_to `{D : Dumper}
    (present_scalar : bool -> nat -> nat -> scalar -> string)
    (sort_keys : bool) (data : list (string * value))
    (written : list string) : list string :=
  let e := expect_node present_scalar false false
             (represent sort_keys (VDict data))
             (prepend written initial_emitter) in
  stream (write_indent e).

(** The emitter is inside a collection that is indented. *)
Definition nested (e : Emitter) : Prop := exists k, indent e = Some (S k).

(* ===================================================================== *)
(** * The process: file system, working directory, output *)
(* ===================================================================== *)

Inductive fs_node : Type :=
  | File (content : string)
  | Dir.

(** The file system maps absolute, normalised paths to what is there. *)
Record World : Type := MkWorld {
  fs : gmap string fs_node;
  cwd : string;
  stdout : list string
}.

Definition set_fs (m : gmap string fs_node) (w : World) : World :=
  MkWorld m (cwd w) (stdout w).
Definition set_cwd (d : string) (w : World) : World :=
  MkWorld (fs w) d (stdout w).
Definition add_stdout (msg : string) (w : World) : World :=
  MkWorld (fs w) (cwd w) (stdout w ++ [msg]).

(** How a computation ends: it returns, [sys.exit(code)] unwinds it, or an
    exception propagates. *)
Inductive outcome (A : Type) : Type :=
  | Returned (a : A)
  | Exited (code : Z)
  | Raised (exn : string).
Global Arguments Returned {A} a.
Global Arguments Exited {A} code.
Global Arguments Raised {A} exn.

Definition M (A : Type) : Type := World -> outcome A * World.

Global Instance M_ret : MRet M := fun A a w => (Returned a, w).

Global Instance M_bind : MBind M := fun A B k m w =>
  match m w with
  | (Returned a, w') => k a w'
  | (Exited code, w') => (Exited code, w')
  | (Raised exn, w') => (Raised exn, w')
  end.

(** [raise exn] *)
Definition raise {A : Type} (exn : string) : M A := fun w => (Raised exn, w).

(** [sys.exit(code)] *)
Definition sys_exit {A : Type} (code : Z) : M A := fun w => (Exited code, w).

(** The status the process ends with: an uncaught exception ends the
    interpreter with status 1. *)
Definition exit_status {A : Type} (o : outcome A) : Z :=
  match o with
  | Returned _ => 0
  | Exited code => code
  | Raised _ => 1
  end.

(** ** [os.path] (posixpath) *)

(** [os.path.join(a, b)] *)
Definition os_path_join (a b : string) : string :=
  if starts_with_slash b then b
  else if bool_decide (a = "") || ends_with_slash a then a +:+ b
  else a +:+ "/" +:+ b.

(** One round of the loop of [normpath] over the components. *)
Definition normpath_step (initial_slashes : nat) (new_comps : list string)
    (comp : string) : list string :=
  if bool_decide (comp = "") || bool_decide (comp = ".") then new_comps
  else if negb (bool_decide (comp = ".."))
          || ((initial_slashes =? 0)%nat && bool_decide (new_comps = []))
          || (negb (bool_decide (new_comps = []))
              && bool_decide (last new_comps = Some ".."))
  then new_comps ++ [comp]
  else removelast new_comps.

Fixpoint slashes (n : nat) : string :=
  match n with
  | O => ""
  | S n' => String "/"%char (slashes n')
  end.

(** [os.path.normpath(path)] *)
Definition os_path_normpath (path : string) : string :=
  if bool_decide (path = "") then "."
  else
    let initial_slashes :=
      if starts_with_slash path
      then (if (leading_slashes path =? 2)%nat then 2 else 1)%nat
      else 0%nat in
    let comps := foldl (normpath_step initial_slashes) [] (split_on "/" path) in
    let path := slashes initial_slashes +:+ join_with "/" comps in
    if bool_decide (path = "") then "." else path.

(** A component that [normpath] keeps for an absolute path: a name other
    than [.] and [..], without a slash. *)
Definition clean_component (c : string) : Prop :=
  c <> "" /\ c <> "." /\ c <> ".." /\ split_on "/" c = [c].

(** [os.path.abspath(path)] with [os.getcwd()] made explicit. *)
Definition os_path_abspath (cwd path : string) : string :=
  os_path_normpath (if starts_with_slash path then path
                    else os_path_join cwd path).

(** [head.rstrip('/')] *)
Fixpoint drop_leading_slashes (s : string) : string :=
  match s with
  | String "/"%char s' => drop_leading_slashes s'
  | _ => s
  end.

Definition rstrip_slashes (s : string) : string :=
  String.rev (drop_leading_slashes (String.rev s)).

(** [os.path.dirname(p)] *)
Definition os_path_dirname (p : string) : string :=
  match split_on "/" p with
  | [] | [_] => ""
  | comps =>
      let head := join_with "/" (removelast comps) +:+ "/" in
      if bool_decide (head = slashes (String.length head)) then head
      else rstrip_slashes head
  end.

(** ** Operations on the world *)

(** [os.getcwd()], [Path.cwd()] *)
Definition os_getcwd : M string := fun w => (Returned (cwd w), w).

(** [os.path.exists(path)] *)
Definition path_exists (w : World) (path : string) : bool :=
  bool_decide (is_Some (fs w !! os_path_abspath (cwd w) path)).

Definition os_path_exists (path : string) : M bool :=
  fun w => (Returned (path_exists w path), w).

(** [with open(path, "w") as f: f.write(content)] *)
Definition write_text_file (path content : string) : M unit := fun w =>
  let p := os_path_abspath (cwd w) path in
  match fs w !! p, fs w !! os_path_dirname p with
  | Some Dir, _ => (Raised "IsADirectoryError", w)
  | _, Some Dir => (Returned tt, set_fs (<[p := File content]> (fs w)) w)
  | _, Some (File _) => (Raised "NotADirectoryError", w)
  | _, None => (Raised "FileNotFoundError", w)
  end.

(** [open(path, "w")] succeeds: the parent is a directory and [path]
    itself is not one. *)
Definition can_write (w : World) (path : string) : Prop :=
  let p := os_path_abspath (cwd w) path in
  fs w !! p <> Some Dir /\ fs w !! os_path_dirname p = Some Dir.

(** ** [click] *)

(** [click.echo(message)] *)
Definition click_echo (message : string) : M unit :=
  fun w => (Returned tt, add_stdout message w).

(** [click.style(text, fg="red")] *)
Definition click_style_red (text : string) : string :=
  ESC +:+ "[31m" +:+ text +:+ ESC +:+ "[0m".

(** ** Scoped working directory *)

(** Modelled from the spec: [dagster._utils.pushd] is not among the
    sources.  Sections 5 and 9: the working directory is set for the scope
    and restored afterward on every exit path, including failure, and this
    is the only resource the scope touches. *)
Definition pushd {A : Type} (path : string) (body : M A) : M A := fun w =>
  let old_cwd := cwd w in
  let '(r, w') := body (set_cwd (os_path_abspath old_cwd path) w) in
  (r, set_cwd old_cwd w').

(* ===================================================================== *)
(** * Component types and the registry *)
(* ===================================================================== *)

(** [component_type_cls.generate_params_schema]: what
    [TypeAdapter(schema).validate_json] makes of a JSON string ([None] when
    pydantic raises [ValidationError]), and the click command found under
    the attribute [cli], if any (argument parsing and callback together). *)
Record GenerateParamsSchema : Type := {
  validate_json : string -> option value;
  cli : option (list string -> M value)
}.

(** A component class as the generators use it: its registry key
    ([get_component_name]), its declared schema, and its [generate_files]
    hook, called with one argument or with none. *)
Record ComponentType : Type := {
  get_component_name : string;
  generate_params_schema : option GenerateParamsSchema;
  generate_files : option value -> M value
}.

(** [TypeAdapter(schema).validate_json(json_params)] *)
Definition TypeAdapter_validate_json (schema : GenerateParamsSchema)
    (json_params : string) : M value :=
  match validate_json schema json_params with
  | Some v => mret v
  | None => raise "ValidationError"
  end.

(** The arguments of one call of the template copier
    [dagster._generate.generate.generate_project]. *)
Record ProjectArgs : Type := {
  pa_path : string;
  pa_name_placeholder : string;
  pa_templates_path : string;
  pa_project_name : option string;
  pa_other_template_vars : list (string * string)
}.



(** [CodeLocationProjectContext] and [DeploymentProjectContext] *)
Record CodeLocationProjectContext : Type := {
  cl_root_path : string;
  cl_component_registry : gmap string ComponentType
}.

Record DeploymentProjectContext : Type := {
  dp_root_path : string
}.

(* ===================================================================== *)
(** * Names: [dagster._utils.camelcase] *)
(* ===================================================================== *)

Module dagster_utils.

(** [[a-z]] *)
Definition is_lower (c : ascii) : bool :=
  let n := nat_of_ascii c in (97 <=? n)%nat && (n <=? 122)%nat.

(** [str.upper] on one character; letters are the ASCII letters. *)
Definition to_upper (c : ascii) : ascii :=
  if is_lower c then ascii_of_nat (nat_of_ascii c - 32) else c.

(** [[\-_\.]] *)
Definition is_leading_separator (c : ascii) : bool :=
  bool_decide (c = "-"%char) || bool_decide (c = "_"%char)
  || bool_decide (c = "."%char).

(** [\s]: the white space among the first 256 code points. *)
Definition is_space (c : ascii) : bool :=
  let n := nat_of_ascii c in
  ((9 <=? n)%nat && (n <=? 13)%nat) || ((28 <=? n)%nat && (n <=? 32)%nat)
  || (n =? 133)%nat || (n =? 160)%nat.

(** [[\-_\.\s]] *)
Definition is_separator (c : ascii) : bool :=
  is_leading_separator c || is_space c.

(** Modelled from the spec: [dagster._utils.camelcase] is not among the
    sources.  Section 4.3 has the class name produced by camel-casing
    the name.  The helper does it with two regular expressions; this is
    the second, applied to all but the first character: from left to
    right, a separator followed by a lowercase letter gives way to that
    letter in upper case, and every other character stays, a separator
    followed by anything else included. *)
Fixpoint camel_rest (s : string) : string :=
  match s with
  | "" => ""
  | String c s' =>
      if is_separator c then
        match s' with
        | String d s'' =>
            if is_lower d then String (to_upper d) (camel_rest s'')
            else String c (camel_rest s')
        | "" => String c ""
        end
      else String c (camel_rest s')
  end.

(** Modelled from the spec: [camelcase(string)] of [dagster._utils], as
    above: one leading [-], [_] or [.] is dropped, the first character
    that remains is upper-cased, the rest goes through [camel_rest]. *)
Definition camelcase (s : string) : string :=
  let s := match s with
           | String c s' => if is_leading_separator c then s' else s
           | "" => ""
           end in
  match s with
  | "" => ""
  | String c rest => String (to_upper c) (camel_rest rest)
  end.

End dagster_utils.






(* ===================================================================== *)
(** * A concrete installation *)
(* ===================================================================== *)

(** Concrete collaborators and a small project on which the commands can
    be run. *)
Module Demo.

(** The presentation of a scalar that PyYAML writes in plain style (a
    word of letters, digits and underscores that is no YAML keyword, or
    [null], a boolean, an integer under its own tag): the text itself. *)
Definition plain_scalar (simple_key : bool) (indent column : nat)
    (s : scalar) : string :=
  sc_value s.

(** [p] is a prefix of [s]: what is left of [s]. *)
Fixpoint strip_prefix (p s : string) : option string :=
  match p, s with
  | "", _ => Some s
  | String a p', String b s' =>
      if decide (a = b) then strip_prefix p' s' else None
  | String _ _, "" => None
  end.

(** [s.replace(old, new)] for a non-empty [old]; [skip] characters of a
    match just replaced are still to be passed over. *)
Fixpoint replace_go (old new : string) (skip : nat) (s : string) : string :=
  match s with
  | "" => ""
  | String c s' =>
      match skip with
      | S k => replace_go old new k s'
      | O =>
          if bool_decide (is_Some (strip_prefix old s))
          then new +:+ replace_go old new (String.length old - 1) s'
          else String c (replace_go old new 0 s')
      end
  end.

Definition replace (old new s : string) : string :=
  if bool_decide (old = "") then s else replace_go old new 0 s.

(** [os.path.basename] of a normalised path *)
Definition basename (p : string) : string :=
  default "" (last (split_on "/" p)).

(** Modelled from the spec: the template copier of section 4.1.  It
    copies the tree under the template directory to the destination,
    replacing the placeholder token by the project name, and every
    additional named token by its value, in entry names and in file
    contents; a missing template directory is [TemplateMissingError].
    Whether the destination exists is the caller's check. *)
Definition copy_template (args : ProjectArgs) : M unit := fun w =>
  let src := os_path_abspath (cwd w) (pa_templates_path args) in
  let dst := os_path_abspath (cwd w) (pa_path args) in
  match fs w !! src with
  | Some Dir =>
      let name := default (basename dst) (pa_project_name args) in
      let substitute (s : string) : string :=
        foldl (fun s '(token, v) => replace token v s)
              (replace (pa_name_placeholder args) name s)
              (pa_other_template_vars args) in
      let copy_entry (m : gmap string fs_node) (entry : string * fs_node) :=
        match strip_prefix (src +:+ "/") entry.1 with
        | Some rest =>
            <[dst +:+ "/" +:+ substitute rest :=
                match entry.2 with
                | File content => File (substitute content)
                | Dir => Dir
                end]> m
        | None => m
        end in
      (Returned tt,
       set_fs (foldl copy_entry (<[dst := Dir]> (fs w)) (map_to_list (fs w))) w)
  | _ => (Raised "TemplateMissingError", w)
  end.

(** Modelled from the spec: a resolver of section 4.2 by marker
    convention.  It walks from [p] upward and stops at the first
    directory that holds an entry called [marker]. *)
Fixpoint walk_up (marker : string) (m : gmap string fs_node) (fuel : nat)
    (p : string) : option string :=
  if bool_decide (is_Some (m !! os_path_join p marker)) then Some p
  else match fuel with
       | O => None
       | S fuel' =>
           if bool_decide (p = "/") then None
           else walk_up marker m fuel' (os_path_dirname p)
       end.

Definition resolve_root (marker : string) (m : gmap string fs_node)
    (p : string) : option string :=
  walk_up marker m (String.length p) p.

Definition component_types_root_path (c : CodeLocationProjectContext) : string :=
  os_path_join (cl_root_path c) "lib".
Definition component_instances_root_path (c : CodeLocationProjectContext) : string :=
  os_path_join (cl_root_path c) "components".
Definition code_location_root_path (c : DeploymentProjectContext) : string :=
  os_path_join (dp_root_path c) "code_locations".

Definition dquote : string := String "034"%char "".

(** The JSON document with the one member [project_path], a string. *)
Definition jaffle_json : string :=
  "{" +:+ dquote +:+ "project_path" +:+ dquote +:+ ": "
      +:+ dquote +:+ "jaffle_shop" +:+ dquote +:+ "}".

(** A schema that accepts two documents. *)
Definition project_schema : GenerateParamsSchema :=
  {| validate_json json :=
       if bool_decide (json = jaffle_json)
       then Some (VDict [("project_path", VStr "jaffle_shop")])
       else if bool_decide (json = "{}") then Some (VDict [])
       else None;
     cli := Some (fun extra_args =>
                    mret (VDict (map (fun a => (a, VBool true)) extra_args))) |}.

(** A component type whose hook leaves a note in the working directory
    and derives the parameters of the descriptor from its argument. *)
Definition project_component : ComponentType :=
  {| get_component_name := "project_component";
     generate_params_schema := Some project_schema;
     generate_files arg :=
       write_text_file "notes.txt" "generated" ;;
       mret match arg with
            | Some (VDict [("project_path", VStr p)]) =>
                VDict [("project", VDict [("project_dir", VStr p)])]
            | _ => VNone
            end |}.

(** A component type without a schema whose hook fails. *)
Definition broken_component : ComponentType :=
  {| get_component_name := "broken_component";
     generate_params_schema := None;
     generate_files _ := raise "RuntimeError" |}.

(** A component type whose hook returns a string. *)
Definition text_component : ComponentType :=
  {| get_component_name := "text_component";
     generate_params_schema := None;
     generate_files _ := mret (VStr "x") |}.

Definition registry : gmap string ComponentType :=
  <["project_component" := project_component]>
    (<["broken_component" := broken_component]> ∅).

Definition module_dir : string := "/site/dagster_components".

Definition project_fs : gmap string fs_node :=
  list_to_map
    [("/", Dir);
     ("/site", Dir);
     ("/site/dagster_components", Dir);
     ("/site/dagster_components/templates", Dir);
     ("/site/dagster_components/templates/COMPONENT_INSTANCE_NAME_PLACEHOLDER", Dir);
     ("/site/dagster_components/templates/COMPONENT_INSTANCE_NAME_PLACEHOLDER/README.md",
      File "COMPONENT_INSTANCE_NAME_PLACEHOLDER");
     ("/repo", Dir);
     ("/repo/pyproject.toml", File "");
     ("/repo/lib", Dir);
     ("/repo/components", Dir);
     ("/repo/components/existing", Dir);
     ("/repo/notes.txt", File "keep")].

(** The process started in the code location [/repo]. *)
Definition in_project : World :=
  {| fs := project_fs; cwd := "/repo"; stdout := [] |}.

(** The process started outside any project. *)
Definition outside : World :=
  {| fs := project_fs; cwd := "/site"; stdout := [] |}.

(** A deployment project with one code location, and the process started
    in it. *)
Definition deployment_fs : gmap string fs_node :=
  list_to_map
    [("/", Dir);
     ("/site", Dir);
     ("/dep", Dir);
     ("/dep/code_locations", Dir);
     ("/dep/code_locations/alpha", Dir)].

Definition in_deployment : World :=
  {| fs := deployment_fs; cwd := "/dep"; stdout := [] |}.

End Demo.

(* ===================================================================== *)
(** * The generators and the commands *)
(* ===================================================================== *)

Section Generate.

(** What the two source files import from elsewhere. *)

(** [os.path.dirname(__file__)] of generate.py *)
Variable module_dir : string.

(** [dagster._utils.camelcase] *)
Variable camelcase : string -> string.

(** [dagster._generate.generate.generate_project], the template copier *)
Variable generate_project : ProjectArgs -> M unit.

(** PyYAML's presentation of scalars *)
Variable present_scalar : bool -> nat -> nat -> scalar -> string.

(** [__component_registry__] *)
Variable component_registry : gmap string ComponentType.

(** Modelled from the spec: [dagster_components.core.deployment] is not
    among the sources.  Section 4.2: the resolvers walk from a path
    upward to find the project root, or find none; they are pure
    inspections of the file system.  The contexts expose sub-paths
    derived from the root. *)
Variable resolve_code_location_root : gmap string fs_node -> string -> option string.
Variable resolve_deployment_root : gmap string fs_node -> string -> option string.
Variable component_types_root_path : CodeLocationProjectContext -> string.
Variable component_instances_root_path : CodeLocationProjectContext -> string.
Variable code_location_root_path : DeploymentProjectContext -> string.

(** Modelled from the spec: section 4.2, [is_inside_code_location_project]
    and [CodeLocationProjectContext.from_path] inspect the same location;
    [has_component_type] asks the registry, [has_component_instance] is
    the existence check of the named sub-directory, [get_component_type]
    fails when the key is absent from the registry. *)
Definition is_inside_code_location_project (path : string) : M bool :=
  fun w => (Returned (bool_decide (is_Some (resolve_code_location_root (fs w)
                        (os_path_abspath (cwd w) path)))), w).

Definition CodeLocationProjectContext_from_path (path : string)
    (registry : gmap string ComponentType) : M CodeLocationProjectContext :=
  fun w => match resolve_code_location_root (fs w) (os_path_abspath (cwd w) path) with
           | Some root => (Returned {| cl_root_path := root;
                                       cl_component_registry := registry |}, w)
           | None => (Raised "DagsterError", w)
           end.

Definition has_component_type (context : CodeLocationProjectContext)
    (name : string) : bool :=
  bool_decide (is_Some (cl_component_registry context !! name)).

Definition get_component_type (context : CodeLocationProjectContext)
    (name : string) : M ComponentType :=
  match cl_component_registry context !! name with
  | Some cls => mret cls
  | None => raise "UnknownComponentTypeError"
  end.

Definition has_component_instance (context : CodeLocationProjectContext)
    (name : string) : M bool :=
  os_path_exists (os_path_join (component_instances_root_path context) name).

(** Modelled from the spec: the same for deployment projects. *)
Definition is_inside_deployment_project (path : string) : M bool :=
  fun w => (Returned (bool_decide (is_Some (resolve_deployment_root (fs w)
                        (os_path_abspath (cwd w) path)))), w).

Definition DeploymentProjectContext_from_path (path : string)
    : M DeploymentProjectContext :=
  fun w => match resolve_deployment_root (fs w) (os_path_abspath (cwd w) path) with
           | Some root => (Returned {| dp_root_path := root |}, w)
           | None => (Raised "DagsterError", w)
           end.

Definition has_code_location (context : DeploymentProjectContext)
    (name : string) : M bool :=
  os_path_exists (os_path_join (code_location_root_path context) name).

(** ** generate.py *)

(** [os.path.join(os.path.dirname(__file__), "templates", name)] *)
Definition templates_path (name : string) : string :=
  os_path_join (os_path_join module_dir "templates") name.

(** The message of generate.py, line 22. *)
Definition deployment_message (path : string) : string :=
  "Creating a Dagster deployment at " +:+ path +:+ ".".

(** generate.py, lines 21-30 *)
Definition generate_deployment (path : string) : M unit :=
  click_echo (deployment_message path) ;;
  generate_project
    {| pa_path := path;
       pa_name_placeholder := "DEPLOYMENT_NAME_PLACEHOLDER";
       pa_templates_path := templates_path "DEPLOYMENT_NAME_PLACEHOLDER";
       pa_project_name := None;
       pa_other_template_vars := [] |}.

(** generate.py, lines 33-42 *)
Definition generate_code_location (path : string) : M unit :=
  click_echo ("Creating a Dagster code location at " +:+ path +:+ ".") ;;
  generate_project
    {| pa_path := path;
       pa_name_placeholder := "CODE_LOCATION_NAME_PLACEHOLDER";
       pa_templates_path := templates_path "CODE_LOCATION_NAME_PLACEHOLDER";
       pa_project_name := None;
       pa_other_template_vars := [] |}.

(** The keyword arguments of the call at generate.py, lines 48-55. *)
Definition component_type_project_args (root_path name : string)
    : ProjectArgs :=
  {| pa_path := root_path;
     pa_name_placeholder := "COMPONENT_TYPE_NAME_PLACEHOLDER";
     pa_templates_path := templates_path "COMPONENT_TYPE";
     pa_project_name := Some name;
     pa_other_template_vars :=
       [("component_type_class_name", camelcase name);
        ("component_type", name)] |}.

(** The message of generate.py, line 46. *)
Definition component_type_message (root_path name : string) : string :=
  "Creating a Dagster component type at "
    +:+ root_path +:+ "/" +:+ name +:+ ".py.".

(** generate.py, lines 45-55 *)
Definition generate_component_type (root_path name : string) : M unit :=
  click_echo (component_type_message root_path name) ;;
  generate_project (component_type_project_args root_path name).

(** [{"type": component_registry_key, "params": component_params or {}}] *)
Definition component_data (component_registry_key : string)
    (component_params : value) : list (string * value) :=
  [("type", VStr component_registry_key);
   ("params", py_or component_params (VDict []))].

(** The hook call of generate.py, lines 75-79:
<<
component_type.generate_files(generate_params)
if generate_params
else component_type.generate_files()
>> *)
Definition call_generate_files (component_type : ComponentType)
    (generate_params : value) : M value :=
  if truthy generate_params
  then generate_files component_type (Some generate_params)
  else generate_files component_type None.

(** The message of generate.py, line 61. *)
Definition component_instance_message (root_path name : string) : string :=
  "Creating a Dagster component instance at "
    +:+ root_path +:+ "/" +:+ name +:+ ".py.".

(** The keyword arguments of the call at generate.py, lines 65-73. *)
Definition component_instance_project_args (root_path name : string)
    (component_type : ComponentType) : ProjectArgs :=
  {| pa_path := os_path_join root_path name;
     pa_name_placeholder := "COMPONENT_INSTANCE_NAME_PLACEHOLDER";
     pa_templates_path := templates_path "COMPONENT_INSTANCE_NAME_PLACEHOLDER";
     pa_project_name := Some name;
     pa_other_template_vars :=
       [("component_type", get_component_name component_type)] |}.

(** generate.py, lines 58-84 *)
Definition generate_component_instance (root_path name : string)
    (component_type : ComponentType) (generate_params : value) : M unit :=
  click_echo (component_instance_message root_path name) ;;
  let component_instance_root_path := os_path_join root_path name in
  let component_registry_key := get_component_name component_type in
  generate_project
    (component_instance_project_args root_path name component_type) ;;
  data ← pushd component_instance_root_path
           (component_params ← call_generate_files component_type generate_params;
            mret (component_data component_registry_key component_params));
  write_text_file (os_path_join component_instance_root_path "component.yaml")
    (yaml_dump present_scalar (D := ComponentDumper) false data).

(** ** cli/generate.py *)

Definition not_in_code_location_message : string :=
  click_style_red "This command must be run inside a Dagster code location project.".

Definition path_exists_message (dir_abspath : string) : string :=
  click_style_red ("A file or directory at " +:+ dir_abspath
                   +:+ " already exists. ")
  +:+ LF +:+ "Please delete the contents of this path or choose another location.".

Definition unknown_component_type_message (component_type : string) : string :=
  click_style_red
    ("No component type `" +:+ component_type +:+ "` could be resolved.").

Definition component_instance_exists_message (component_name : string) : string :=
  click_style_red
    ("A component instance named `" +:+ component_name +:+ "` already exists.").

(** cli/generate.py, lines 29-40 *)
Definition generate_deployment_command (path : string) : M unit :=
  cwd ← os_getcwd;
  let dir_abspath := os_path_abspath cwd path in
  exists_ ← os_path_exists dir_abspath;
  if exists_ : bool then
    click_echo (path_exists_message dir_abspath) ;;
    sys_exit 1
  else generate_deployment path.

(** cli/generate.py, lines 43-59 *)
Definition generate_code_location_command (name : string) : M unit :=
  inside ← is_inside_deployment_project ".";
  if negb inside then
    click_echo (click_style_red
      "This command must be run inside a Dagster deployment project.") ;;
    sys_exit 1
  else
    cwd ← os_getcwd;
    context ← DeploymentProjectContext_from_path cwd;
    taken ← has_code_location context name;
    if taken : bool then
      click_echo (click_style_red
        ("A code location named " +:+ name +:+ " already exists.")) ;;
      sys_exit 1
    else
      let code_location_path :=
        os_path_join (code_location_root_path context) name in
      generate_code_location code_location_path.

(** cli/generate.py, lines 62-81 *)
Definition generate_component_type_command (name : string) : M unit :=
  inside ← is_inside_code_location_project ".";
  if negb inside then
    click_echo not_in_code_location_message ;; sys_exit 1
  else
    cwd ← os_getcwd;
    context ← CodeLocationProjectContext_from_path cwd component_registry;
    if has_component_type context name then
      click_echo (click_style_red
        ("A component type named `" +:+ name +:+ "` already exists.")) ;;
      sys_exit 1
    else generate_component_type (component_types_root_path context) name.

(** cli/generate.py, lines 117-129: where the parameters come from. *)
Definition resolve_generate_params (component_type_cls : ComponentType)
    (json_params : option string) (extra_args : list string) : M value :=
  match generate_params_schema component_type_cls with
  | None => mret VNone
  | Some schema =>
      match json_params with
      | Some json => TypeAdapter_validate_json schema json
      | None =>
          match cli schema with
          | Some generate_params_cli => generate_params_cli extra_args
          | None => mret VNone
          end
      end
  end.

(** cli/generate.py, lines 84-132 *)
Definition generate_component_command (component_type component_name : string)
    (json_params : option string) (extra_args : list string) : M unit :=
  inside ← is_inside_code_location_project ".";
  if negb inside then
    click_echo not_in_code_location_message ;; sys_exit 1
  else
    cwd ← os_getcwd;
    context ← CodeLocationProjectContext_from_path cwd component_registry;
    if negb (has_component_type context component_type) then
      click_echo (unknown_component_type_message component_type) ;;
      sys_exit 1
    else
      taken ← has_component_instance context component_name;
      if taken : bool then
        click_echo (component_instance_exists_message component_name) ;;
        sys_exit 1
      else
        component_type_cls ← get_component_type context component_type;
        generate_params ←
          resolve_generate_params component_type_cls json_params extra_args;
        generate_component_instance (component_instances_root_path context)
          component_name component_type_cls generate_params.


(** ** Names for what the other commands echo and pass on *)

(** cli/generate.py, line 49 *)
Definition not_in_deployment_message : string :=
  click_style_red "This command must be run inside a Dagster deployment project.".

(** cli/generate.py, line 55 *)
Definition code_location_exists_message (name : string) : string :=
  click_style_red ("A code location named " +:+ name +:+ " already exists.").

(** cli/generate.py, line 78 *)
Definition component_type_exists_message (name : string) : string :=
  click_style_red ("A component type named `" +:+ name +:+ "` already exists.").

(** generate.py, line 34 *)
Definition code_location_message (path : string) : string :=
  "Creating a Dagster code location at " +:+ path +:+ ".".

(** The keyword arguments of the call at generate.py, lines 24-30. *)
Definition deployment_project_args (path : string) : ProjectArgs :=
  {| pa_path := path;
     pa_name_placeholder := "DEPLOYMENT_NAME_PLACEHOLDER";
     pa_templates_path := templates_path "DEPLOYMENT_NAME_PLACEHOLDER";
     pa_project_name := None;
     pa_other_template_vars := [] |}.

(** The keyword arguments of the call at generate.py, lines 36-42. *)
Definition code_location_project_args (path : string) : ProjectArgs :=
  {| pa_path := path;
     pa_name_placeholder := "CODE_LOCATION_NAME_PLACEHOLDER";
     pa_templates_path := templates_path "CODE_LOCATION_NAME_PLACEHOLDER";
     pa_project_name := None;
     pa_other_template_vars := [] |}.

(** ** Names for what the dumper writes at the top level *)

(** The emitter at the start of a line of the top-level mapping. *)
Definition at_top_line_start : Emitter :=
  MkEmitter (Some 0%nat) 0 true true [].

(** A top-level entry that the override leaves alone inside: a simple key
    with a value that is not a non-empty list. *)
Definition top_entry (kv : string * value) : Prop :=
  check_simple_key (Scalar tag_str kv.1) = true
  /\ forall items, kv.2 = VList items -> items = [].

(** What the stock [yaml.Dumper] writes for one top-level entry: the key,
    the colon, the value. *)
Definition entry_block (kv : string * value) : string :=
  let key_text := present_scalar true 2%nat 0%nat (Scalar tag_str kv.1) in
  key_text +:+ ":"
    +:+ flush (stream (expect_node present_scalar (D := yaml_Dumper) true false
                         (represent false kv.2)
                         (MkEmitter (Some 0%nat) (column_after 0 key_text + 1)
                            false false []))).

(** One scalar item of a sequence that is the value of a top-level key,
    after the line breaks [breaks]: dash, blank, the item. *)
Definition top_item_line (breaks : string) (v : value) : string :=
  match scalar_of v with
  | Some s => breaks +:+ "-" +:+ " " +:+ present_scalar false 2%nat 2%nat s
  | None => ""
  end.
(* ===================================================================== *)
(** * Facts: strings *)
(* ===================================================================== *)

Lemma string_app_cons (c : ascii) (a b : string) :
  String c a +:+ b = String c (a +:+ b).
Proof. done. Qed.

Lemma string_app_assoc (a b c : string) : (a +:+ b) +:+ c = a +:+ (b +:+ c).
Proof.
  induction a as [| x a IH]; [done |].
  by rewrite !string_app_cons, IH.
Qed.

Lemma string_app_nil_r (a : string) : a +:+ "" = a.
Proof.
  induction a as [| x a IH]; [done |].
  by rewrite string_app_cons, IH.
Qed.

Lemma flush_cons (x : string) (a : list string) :
  flush (x :: a) = x +:+ flush a.
Proof. done. Qed.

Lemma flush_app (a b : list string) : flush (a ++ b) = flush a +:+ flush b.
Proof.
  induction a as [| x a IH]; [done |].
  change ((x :: a) ++ b) with (x :: (a ++ b)).
  by rewrite !flush_cons, IH, string_app_assoc.
Qed.

(* ===================================================================== *)
(** * Facts: paths *)
(* ===================================================================== *)

Lemma split_on_cons sep s : exists h t, split_on sep s = h :: t.
Proof.
  induction s as [| c s (h & t & IH)]; simpl; [by eexists _, _ |].
  destruct (decide (c = sep)); [by eexists _, _ |].
  rewrite IH. by eexists _, _.
Qed.

Lemma split_on_app_sep sep a b :
  split_on sep (a +:+ String sep b) = split_on sep a ++ split_on sep b.
Proof.
  induction a as [| x a IH].
  - change ("" +:+ String sep b) with (String sep b).
    cbn [split_on]. by rewrite decide_True.
  - rewrite string_app_cons. cbn [split_on].
    destruct (decide (x = sep)); [by rewrite IH |].
    rewrite IH. by destruct (split_on_cons sep a) as (h & t & ->).
Qed.

Lemma ends_with_slash_inv c :
  ends_with_slash c = true -> exists c', c = c' +:+ "/".
Proof.
  induction c as [| x c IH]; [done |].
  destruct c as [| y c].
  - cbn. intros ->%bool_decide_eq_true. by exists "".
  - intros H. destruct (IH H) as [c' ->]. by exists (String x c').
Qed.

Lemma leading_slashes_cons_slash s :
  leading_slashes (String "/" s) = S (leading_slashes s).
Proof. done. Qed.

Lemma leading_slashes_cons_other c s :
  c <> "/"%char -> leading_slashes (String c s) = 0%nat.
Proof. intros Hc. destruct c as [[] [] [] [] [] [] [] []]; done. Qed.

Lemma leading_slashes_app_dot c :
  leading_slashes (c +:+ ".") = leading_slashes c.
Proof.
  induction c as [| x c IH]; [done |].
  rewrite string_app_cons.
  destruct (decide (x = "/"%char)) as [-> | Hx].
  - by rewrite !leading_slashes_cons_slash, IH.
  - by rewrite !leading_slashes_cons_other.
Qed.

Lemma leading_slashes_app_open c x :
  c <> "" -> ends_with_slash c = false ->
  leading_slashes (c +:+ x) = leading_slashes c.
Proof.
  induction c as [| y c IH]; [done |]. intros _ Hend.
  rewrite string_app_cons.
  destruct (decide (y = "/"%char)) as [-> | Hy].
  - rewrite !leading_slashes_cons_slash. f_equal.
    destruct c as [| z c]; [done |]. by apply IH.
  - by rewrite !leading_slashes_cons_other.
Qed.

Lemma starts_with_slash_app c x :
  starts_with_slash c = true -> starts_with_slash (c +:+ x) = true.
Proof. by destruct c. Qed.

Lemma normpath_step_skip n comps c :
  c = "" \/ c = "." -> normpath_step n comps c = comps.
Proof. by intros [-> | ->]. Qed.

Lemma foldl_normpath_step_skip n comps z :
  Forall (fun s => s = "" \/ s = ".") z ->
  foldl (normpath_step n) comps z = comps.
Proof.
  intros Hz. revert comps. induction Hz as [| s z Hs _ IH]; intros comps; [done |].
  cbn [foldl]. by rewrite normpath_step_skip.
Qed.

(** Appending components that [normpath] drops changes nothing. *)
Lemma normpath_app_dropped c x :
  starts_with_slash c = true ->
  leading_slashes (c +:+ x) = leading_slashes c ->
  (exists l a b, split_on "/" c = l ++ a /\ split_on "/" (c +:+ x) = l ++ b
     /\ Forall (fun s => s = "" \/ s = ".") a
     /\ Forall (fun s => s = "" \/ s = ".") b) ->
  os_path_normpath (c +:+ x) = os_path_normpath c.
Proof.
  intros Hc Hlead (l & a & b & Ha & Hb & Fa & Fb).
  unfold os_path_normpath.
  rewrite starts_with_slash_app, Hc, Hlead by done.
  destruct c as [| y c]; [done |]. rewrite string_app_cons.
  rewrite !bool_decide_eq_false_2 by done.
  rewrite <- string_app_cons, Ha, Hb, !foldl_app.
  rewrite (bool_decide_eq_false_2 (String y c = "")) by done.
  rewrite (foldl_normpath_step_skip _ _ a) by done.
  by rewrite (foldl_normpath_step_skip _ _ b) by done.
Qed.

(** [Path(".")] and [Path.cwd()] name the same place. *)
Lemma abspath_cwd_dot c :
  starts_with_slash c = true -> os_path_abspath c c = os_path_abspath c ".".
Proof.
  intros Hc. symmetry. unfold os_path_abspath. rewrite Hc. cbn [starts_with_slash].
  unfold os_path_join. cbn [starts_with_slash].
  assert (c <> "") as Hne by (by destruct c).
  rewrite bool_decide_eq_false_2 by done. cbn [orb].
  destruct (ends_with_slash c) eqn:Hend.
  - apply normpath_app_dropped; [done | apply leading_slashes_app_dot |].
    destruct (ends_with_slash_inv c Hend) as [c' ->].
    exists (split_on "/" c'), [""], ["."].
    rewrite string_app_assoc.
    change ("/" +:+ ".") with (String "/"%char ".").
    change "/" with (String "/"%char "").
    rewrite !split_on_app_sep.
    split; [done |]. split; [done |]. split; apply Forall_singleton; auto.
  - change ("/" +:+ ".") with (String "/"%char ".").
    apply normpath_app_dropped; [done | by apply leading_slashes_app_open |].
    exists (split_on "/" c), [], ["."].
    rewrite split_on_app_sep, app_nil_r.
    split; [done |]. split; [done |].
    split; [constructor | apply Forall_singleton; auto].
Qed.

Lemma split_on_components s :
  Forall (fun c => split_on "/" c = [c]) (split_on "/" s).
Proof.
  induction s as [| x s IH]; [by constructor |].
  cbn [split_on]. destruct (decide (x = "/"%char)) as [-> | Hx].
  - by constructor.
  - destruct (split_on_cons "/" s) as (h & t & Hs). rewrite Hs in IH |- *.
    inversion IH as [| ? ? Hh Ht]; subst. constructor; [| done].
    cbn [split_on]. by rewrite decide_False, Hh.
Qed.

Lemma clean_not_parent acc :
  Forall clean_component acc -> last acc <> Some "..".
Proof.
  intros Hacc Hlast. apply last_Some in Hlast as [l' ->].
  apply Forall_app in Hacc as [_ Hx]. inversion Hx as [| ? ? Hc _]; subst.
  by destruct Hc as (_ & _ & ? & _).
Qed.

Lemma Forall_removelast {A : Type} (Q : A -> Prop) (l : list A) :
  Forall Q l -> Forall Q (removelast l).
Proof.
  induction 1 as [| x l Hx Hl IH]; [constructor |].
  cbn [removelast]. destruct l; [constructor | by constructor].
Qed.

Lemma normpath_step_clean n acc c :
  (0 < n)%nat -> Forall clean_component acc -> split_on "/" c = [c] ->
  Forall clean_component (normpath_step n acc c).
Proof.
  intros Hn Hacc Hc. unfold normpath_step.
  destruct (bool_decide (c = "") || bool_decide (c = ".")) eqn:Hskip; [done |].
  apply orb_false_iff in Hskip as [H1%bool_decide_eq_false H2%bool_decide_eq_false].
  destruct (decide (c = "..")) as [-> | Hpar].
  - rewrite bool_decide_eq_true_2 by done. cbn [negb orb].
    replace (n =? 0)%nat with false by (symmetry; apply Nat.eqb_neq; lia).
    rewrite (bool_decide_eq_false_2 (last acc = Some ".."))
      by by apply clean_not_parent.
    rewrite andb_false_r. cbn [andb orb].
    by apply Forall_removelast.
  - rewrite (bool_decide_eq_false_2 (c = "..")) by done. cbn [negb orb].
    apply Forall_app. split; [done |]. by apply Forall_singleton.
Qed.

Lemma foldl_normpath_step_clean n l :
  (0 < n)%nat -> Forall (fun c => split_on "/" c = [c]) l ->
  forall acc, Forall clean_component acc ->
    Forall clean_component (foldl (normpath_step n) acc l).
Proof.
  intros Hn. induction 1 as [| c l Hc _ IH]; intros acc Hacc; [done |].
  cbn [foldl]. apply IH. by apply normpath_step_clean.
Qed.

Lemma foldl_normpath_step_keep n l :
  Forall clean_component l ->
  forall acc, foldl (normpath_step n) acc l = acc ++ l.
Proof.
  induction 1 as [| c l (H1 & H2 & H3 & _) _ IH]; intros acc.
  - by rewrite app_nil_r.
  - cbn [foldl]. unfold normpath_step at 2.
    rewrite !bool_decide_eq_false_2 by done. cbn [negb orb].
    by rewrite IH, <- app_assoc.
Qed.

Lemma clean_component_head c :
  clean_component c -> exists x s, c = String x s /\ x <> "/"%char.
Proof.
  intros (Hne & _ & _ & Hsplit). destruct c as [| x s]; [done |].
  exists x, s. split; [done |]. intros ->.
  cbn [split_on] in Hsplit. by rewrite decide_True in Hsplit.
Qed.

Lemma split_on_join comps :
  Forall clean_component comps -> comps <> [] ->
  split_on "/" (join_with "/" comps) = comps.
Proof.
  induction 1 as [| c comps Hc Hcomps IH]; [done |]. intros _.
  destruct comps as [| d comps].
  - by destruct Hc as (_ & _ & _ & Hs).
  - change (join_with "/" (c :: d :: comps))
      with (c +:+ String "/"%char (join_with "/" (d :: comps))).
    rewrite split_on_app_sep, IH by done.
    by destruct Hc as (_ & _ & _ & ->).
Qed.

Lemma leading_slashes_join comps :
  Forall clean_component comps -> leading_slashes (join_with "/" comps) = 0%nat.
Proof.
  intros Hcomps. destruct Hcomps as [| c comps Hc _]; [done |].
  destruct (clean_component_head c Hc) as (x & s & -> & Hx).
  destruct comps; cbn [join_with]; rewrite ?string_app_cons;
    by apply leading_slashes_cons_other.
Qed.

Lemma leading_slashes_slashes n s :
  leading_slashes (slashes n +:+ s) = (n + leading_slashes s)%nat.
Proof.
  induction n as [| n IH]; [done |].
  cbn [slashes]. by rewrite string_app_cons, leading_slashes_cons_slash, IH.
Qed.

Lemma split_on_slashes n s :
  split_on "/" (slashes n +:+ s) = replicate n "" ++ split_on "/" s.
Proof.
  induction n as [| n IH]; [done |].
  cbn [slashes replicate]. rewrite string_app_cons. cbn [split_on].
  by rewrite decide_True, IH.
Qed.

(** The normal form of an absolute path is absolute and normal. *)
Lemma normpath_absolute q :
  starts_with_slash q = true ->
  starts_with_slash (os_path_normpath q) = true
  /\ os_path_normpath (os_path_normpath q) = os_path_normpath q.
Proof.
  intros Hq. assert (q <> "") as Hne by (by destruct q).
  unfold os_path_normpath at 1 3 4.
  rewrite (bool_decide_eq_false_2 (q = "")), Hq by done.
  set (n := if (leading_slashes q =? 2)%nat then 2%nat else 1%nat).
  assert ((0 < n)%nat) as Hn by (subst n; destruct (_ =? _)%nat; lia).
  set (comps := foldl (normpath_step n) [] (split_on "/" q)).
  assert (Forall clean_component comps) as Hclean.
  { apply foldl_normpath_step_clean; [done | apply split_on_components | constructor]. }
  assert (slashes n +:+ join_with "/" comps <> "") as Hr.
  { destruct n; [lia | done]. }
  rewrite (bool_decide_eq_false_2 _ Hr).
  assert (starts_with_slash (slashes n +:+ join_with "/" comps) = true) as Hs.
  { destruct n; [lia | done]. }
  split; [done |].
  unfold os_path_normpath.
  rewrite (bool_decide_eq_false_2 _ Hr), Hs.
  rewrite leading_slashes_slashes, leading_slashes_join, Nat.add_0_r by done.
  replace (if (n =? 2)%nat then 2%nat else 1%nat) with n
    by (subst n; by destruct (_ =? _)%nat).
  rewrite split_on_slashes, foldl_app.
  rewrite (foldl_normpath_step_skip n [] (replicate n ""))
    by (apply Forall_replicate; auto).
  assert (foldl (normpath_step n) [] (split_on "/" (join_with "/" comps)) = comps)
    as ->.
  { destruct (decide (comps = [])) as [-> | Hc]; [done |].
    rewrite split_on_join by done. by rewrite foldl_normpath_step_keep. }
  by rewrite (bool_decide_eq_false_2 _ Hr).
Qed.

(** [os.path.abspath] gives an absolute path, and is idempotent. *)
Lemma abspath_idempotent c p :
  starts_with_slash c = true ->
  os_path_abspath c (os_path_abspath c p) = os_path_abspath c p.
Proof.
  intros Hc. unfold os_path_abspath at 2 3.
  set (q := if starts_with_slash p then p else os_path_join c p).
  assert (starts_with_slash q = true) as Hq.
  { subst q. destruct (starts_with_slash p) eqn:Hp; [done |].
    unfold os_path_join. rewrite Hp.
    destruct (_ || _); by apply starts_with_slash_app. }
  destruct (normpath_absolute q Hq) as [Habs Hidem].
  unfold os_path_abspath. by rewrite Habs.
Qed.
(* ===================================================================== *)
(** * Facts: the emitter *)
(* ===================================================================== *)

(** Induction on nodes that reaches the nodes inside the collections. *)
Lemma node_nested_ind (Q : node -> Prop) :
  (forall s, Q (NScalar s)) ->
  (forall items, Forall Q items -> Q (NSequence items)) ->
  (forall entries, Forall (fun kv => Q kv.2) entries -> Q (NMapping entries)) ->
  forall n, Q n.
Proof.
  intros Hs Hq Hm.
  fix IH 1. intros [s | items | entries].
  - apply Hs.
  - apply Hq. induction items as [| x xs IHxs]; constructor; [apply IH | apply IHxs].
  - apply Hm. induction entries as [| [k v] xs IHxs]; constructor; [apply IH | apply IHxs].
Qed.

Lemma foldl_prepend {A : Type} (f : Emitter -> A -> Emitter) (l : list A) pre :
  Forall (fun x => forall e, f (prepend pre e) x = prepend pre (f e x)) l ->
  forall e, foldl f (prepend pre e) l = prepend pre (foldl f e l).
Proof.
  induction 1 as [| x xs Hx _ IH]; intros e; simpl; [done |].
  by rewrite Hx, IH.
Qed.

Lemma foldl_last_step {A : Type} (Q : Emitter -> Prop)
    (f : Emitter -> A -> Emitter) (l : list A) :
  l <> [] -> Forall (fun x => forall e, Q (f e x)) l ->
  forall e, Q (foldl f e l).
Proof.
  intros Hne Hall e. destruct (exists_last Hne) as (l' & x & ->).
  rewrite foldl_snoc. apply Forall_app in Hall as [_ Hx].
  inversion Hx as [| ? ? Hq _]; subst. apply Hq.
Qed.

Lemma foldl_nested_agree {A : Type} (f g : Emitter -> A -> Emitter) (l : list A) :
  Forall (fun x => forall e, nested e -> f e x = g e x /\ nested (g e x)) l ->
  forall e, nested e -> foldl f e l = foldl g e l.
Proof.
  induction 1 as [| x xs Hx _ IH]; intros e He; simpl; [done |].
  destruct (Hx e He) as [-> Hn]. by apply IH.
Qed.

Lemma write_indicator_prepend i n ws d pre e :
  write_indicator i n ws d (prepend pre e) = prepend pre (write_indicator i n ws d e).
Proof. unfold write_indicator, prepend; simpl. by rewrite app_assoc. Qed.

Lemma increase_indent_prepend f i pre e :
  increase_indent f i (prepend pre e) = prepend pre (increase_indent f i e).
Proof. unfold increase_indent. cbn [prepend indent]. by destruct (indent e), i. Qed.

Lemma increase_indent_nested flow indentless e :
  nested e -> nested (increase_indent flow indentless e).
Proof.
  intros [k Hk]. unfold increase_indent. rewrite Hk.
  destruct indentless; [by exists k |].
  by exists (k + best_indent)%nat.
Qed.

Lemma expect_scalar_prepend sk s pre e :
  expect_scalar present_scalar sk s (prepend pre e)
  = prepend pre (expect_scalar present_scalar sk s e).
Proof.
  unfold expect_scalar, process_scalar. rewrite increase_indent_prepend.
  set (e1 := increase_indent true false e).
  cbn [prepend indent column whitespace indention stream].
  destruct (whitespace e1); unfold set_indent, prepend; simpl; by rewrite ?app_assoc.
Qed.

Lemma set_indent_prepend i pre e :
  set_indent i (prepend pre e) = prepend pre (set_indent i e).
Proof. done. Qed.

Lemma expect_empty_flow_prepend o c pre e :
  expect_empty_flow o c (prepend pre e) = prepend pre (expect_empty_flow o c e).
Proof.
  unfold expect_empty_flow.
  by rewrite write_indicator_prepend, increase_indent_prepend,
    set_indent_prepend, write_indicator_prepend.
Qed.

Lemma Emitter_write_line_break_prepend pre e :
  Emitter_write_line_break (prepend pre e) = prepend pre (Emitter_write_line_break e).
Proof. unfold Emitter_write_line_break, prepend; simpl. by rewrite app_assoc. Qed.

Lemma expect_node_indent `{D : Dumper} n mc sk e :
  indent (expect_node present_scalar mc sk n e) = indent e.
Proof. destruct n as [s | [| x xs] | [| x xs]]; done. Qed.

Lemma expect_node_keeps_nested `{D : Dumper} n mc sk e :
  nested e -> nested (expect_node present_scalar mc sk n e).
Proof. intros [k Hk]. exists k. by rewrite expect_node_indent. Qed.

(** After any node the emitter is no longer at the start of a line. *)
Lemma expect_node_indention `{D : Dumper} n :
  forall mc sk e, indention (expect_node present_scalar mc sk n e) = false.
Proof.
  induction n as [s | items IH | entries IH] using node_nested_ind;
    intros mc sk e.
  - done.
  - destruct items as [| x xs].
    { unfold expect_node, expect_empty_flow, write_indicator; simpl.
      by rewrite andb_false_r. }
    cbn [expect_node set_indent indention].
    apply (foldl_last_step (fun e => indention e = false)); [done |].
    eapply Forall_impl; [exact IH |]. intros item Hitem e'.
    apply Hitem.
  - destruct entries as [| x xs].
    { unfold expect_node, expect_empty_flow, write_indicator; simpl.
      by rewrite andb_false_r. }
    cbn [expect_node set_indent indention].
    apply (foldl_last_step (fun e => indention e = false)); [done |].
    eapply Forall_impl; [exact IH |]. intros [k v] Hv e'.
    unfold expect_block_mapping_key. cbn [fst snd] in *.
    destruct (check_simple_key k); apply Hv.
Qed.

Section Layout.

(** A dumper class that writes [sep] for a line break at indentation 0 and
    behaves like the stock emitter everywhere else. *)
Context `{D : Dumper} (sep : list string).
Hypothesis write_line_break_top : forall e,
  indent e = Some 0%nat ->
  write_line_break e = MkEmitter (indent e) 0 true true (stream e ++ sep).
Hypothesis write_line_break_elsewhere : forall e,
  indent e <> Some 0%nat -> write_line_break e = Emitter_write_line_break e.

Lemma write_line_break_prepend pre e :
  write_line_break (prepend pre e) = prepend pre (write_line_break e).
Proof.
  destruct (decide (indent e = Some 0%nat)) as [H0 | Hn].
  - rewrite !write_line_break_top by done.
    unfold prepend; simpl. by rewrite app_assoc.
  - rewrite !write_line_break_elsewhere by done.
    apply Emitter_write_line_break_prepend.
Qed.

Lemma write_indent_prepend pre e :
  write_indent (prepend pre e) = prepend pre (write_indent e).
Proof.
  unfold write_indent. cbn [prepend indent column whitespace indention stream].
  destruct (negb (indention e) || _ || _).
  - rewrite write_line_break_prepend.
    cbn [prepend indent column whitespace indention stream].
    destruct (_ <? _)%nat; [| done].
    unfold prepend; simpl. by rewrite app_assoc.
  - destruct (_ <? _)%nat; [| done].
    unfold prepend; simpl. by rewrite app_assoc.
Qed.

Lemma nested_not_top e : nested e -> indent e <> Some 0%nat.
Proof. intros [k ->]. done. Qed.

Lemma write_indent_nested e :
  nested e -> write_indent e = write_indent (D := yaml_Dumper) e.
Proof.
  intros He. unfold write_indent.
  by rewrite write_line_break_elsewhere by by apply nested_not_top.
Qed.

Lemma write_indent_keeps_nested e :
  nested e -> nested (write_indent (D := yaml_Dumper) e).
Proof.
  intros [k Hk]. exists k. rewrite <- Hk. unfold write_indent.
  destruct (negb (indention e) || _ || _); destruct (_ <? _)%nat; done.
Qed.

(** Writing before or after: the emitter only ever appends. *)
Lemma expect_node_prepend n :
  forall mc sk pre e,
    expect_node present_scalar mc sk n (prepend pre e)
    = prepend pre (expect_node present_scalar mc sk n e).
Proof.
  induction n as [s | items IH | entries IH] using node_nested_ind;
    intros mc sk pre e.
  - apply expect_scalar_prepend.
  - destruct items as [| x xs]; [apply expect_empty_flow_prepend |].
    cbn [expect_node]. rewrite increase_indent_prepend.
    cbn [prepend indent column whitespace indention stream].
    rewrite foldl_prepend; [done |].
    eapply Forall_impl; [exact IH |]. intros item Hitem e'.
    unfold expect_block_sequence_item.
    by rewrite write_indent_prepend, write_indicator_prepend, Hitem.
  - destruct entries as [| x xs]; [apply expect_empty_flow_prepend |].
    cbn [expect_node]. rewrite increase_indent_prepend.
    cbn [prepend indent column whitespace indention stream].
    rewrite foldl_prepend; [done |].
    eapply Forall_impl; [exact IH |]. intros [k v] Hv e'.
    unfold expect_block_mapping_key. cbn [fst snd] in *.
    rewrite write_indent_prepend.
    destruct (check_simple_key k).
    + by rewrite expect_scalar_prepend, write_indicator_prepend, Hv.
    + by rewrite write_indicator_prepend, expect_scalar_prepend,
        write_indent_prepend, write_indicator_prepend, Hv.
Qed.


(** One entry of an indented block mapping is written as the stock
    emitter writes it, once its value is. *)
Lemma expect_block_mapping_key_nested kv e :
  (forall mc sk e', nested e' ->
     expect_node present_scalar mc sk kv.2 e'
     = expect_node present_scalar (D := yaml_Dumper) mc sk kv.2 e') ->
  nested e ->
  expect_block_mapping_key present_scalar (expect_node present_scalar) e kv
  = expect_block_mapping_key present_scalar (D := yaml_Dumper)
      (expect_node present_scalar (D := yaml_Dumper)) e kv
  /\ nested (expect_block_mapping_key present_scalar (D := yaml_Dumper)
               (expect_node present_scalar (D := yaml_Dumper)) e kv).
Proof.
  intros Hv He. destruct kv as [k v]. unfold expect_block_mapping_key.
  cbn [fst snd] in *.
  rewrite write_indent_nested by done.
  pose proof (write_indent_keeps_nested e He) as [j Hj].
  destruct (check_simple_key k).
  - split; [apply Hv | apply expect_node_keeps_nested]; by exists j.
  - set (e1 := expect_scalar present_scalar false k _).
    assert (nested e1) as He1 by (by exists j).
    rewrite write_indent_nested by done.
    pose proof (write_indent_keeps_nested e1 He1) as [i Hi].
    split; [apply Hv | apply expect_node_keeps_nested]; by exists i.
Qed.

(** Inside an indented collection the dumper and the stock emitter write
    the same. *)
Lemma expect_node_nested n :
  forall mc sk e, nested e ->
    expect_node present_scalar mc sk n e
    = expect_node present_scalar (D := yaml_Dumper) mc sk n e.
Proof.
  induction n as [s | items IH | entries IH] using node_nested_ind;
    intros mc sk e He.
  - done.
  - destruct items as [| x xs]; [done |].
    cbn [expect_node]. f_equal.
    apply foldl_nested_agree; [| by apply increase_indent_nested].
    eapply Forall_impl; [exact IH |]. intros item Hitem e' He'.
    unfold expect_block_sequence_item.
    rewrite write_indent_nested by done.
    assert (nested (write_indicator "-" true false true
                      (write_indent (D := yaml_Dumper) e'))) as Hn.
    { destruct (write_indent_keeps_nested e' He') as [k Hk]. by exists k. }
    split; [by apply Hitem | by apply expect_node_keeps_nested].
  - destruct entries as [| x xs]; [done |].
    cbn [expect_node]. f_equal.
    apply foldl_nested_agree; [| by apply increase_indent_nested].
    eapply Forall_impl; [exact IH |]. intros kv Hv e' He'.
    by apply expect_block_mapping_key_nested.
Qed.

(** A mapping below a top-level key: its entries are indented, so the
    dumper writes it as the stock emitter does. *)
Lemma expect_block_mapping_agree entries mc sk e :
  is_Some (indent e) ->
  expect_node present_scalar mc sk (NMapping entries) e
  = expect_node present_scalar (D := yaml_Dumper) mc sk (NMapping entries) e.
Proof.
  intros [i Hi]. destruct entries as [| x xs]; [done |].
  cbn [expect_node]. f_equal.
  apply foldl_nested_agree.
  2:{ unfold increase_indent. rewrite Hi. exists (S i). simpl.
      f_equal. unfold best_indent. lia. }
  apply Forall_forall. intros kv _ e' He'.
  apply expect_block_mapping_key_nested; [| done].
  intros. by apply expect_node_nested.
Qed.

Hypothesis present_type : forall i c,
  present_scalar true i c (Scalar tag_str "type") = "type".
Hypothesis present_params : forall i c,
  present_scalar true i c (Scalar tag_str "params") = "params".


End Layout.

Lemma yaml_Dumper_top e :
  indent e = Some 0%nat ->
  write_line_break (Dumper := yaml_Dumper) e
  = MkEmitter (indent e) 0 true true (stream e ++ [LF]).
Proof. done. Qed.

Lemma yaml_Dumper_elsewhere e :
  indent e <> Some 0%nat ->
  write_line_break (Dumper := yaml_Dumper) e = Emitter_write_line_break e.
Proof. done. Qed.

(** At the top level the override breaks the line twice. *)
Lemma ComponentDumper_top e :
  indent e = Some 0%nat ->
  write_line_break (Dumper := ComponentDumper) e
  = MkEmitter (indent e) 0 true true (stream e ++ [LF; LF]).
Proof.
  intros H0. cbn [write_line_break ComponentDumper].
  unfold ComponentDumper_write_line_break. rewrite decide_True by done.
  unfold Emitter_write_line_break; simpl. by rewrite <- app_assoc.
Qed.

(** Everywhere else it is the stock line break. *)
Lemma ComponentDumper_elsewhere e :
  indent e <> Some 0%nat ->
  write_line_break (Dumper := ComponentDumper) e = Emitter_write_line_break e.
Proof.
  intros Hn. cbn [write_line_break ComponentDumper].
  unfold ComponentDumper_write_line_break. by rewrite decide_False.
Qed.








Section Descriptor.

Hypothesis present_type : forall i c,
  present_scalar true i c (Scalar tag_str "type") = "type".
Hypothesis present_params : forall i c,
  present_scalar true i c (Scalar tag_str "params") = "params".


End Descriptor.

(* ===================================================================== *)
(** * Facts: the process *)
(* ===================================================================== *)

Lemma bind_run {A B : Type} (m : M A) (k : A -> M B) (w : World) :
  (m ≫= k) w = match m w with
               | (Returned a, w') => k a w'
               | (Exited code, w') => (Exited code, w')
               | (Raised exn, w') => (Raised exn, w')
               end.
Proof. done. Qed.

Lemma write_text_file_ok path content w :
  can_write w path ->
  write_text_file path content w
  = (Returned tt,
     set_fs (<[os_path_abspath (cwd w) path := File content]> (fs w)) w).
Proof.
  intros [Hp Hd]. unfold write_text_file. rewrite Hd.
  by destruct (fs w !! os_path_abspath (cwd w) path) as [[] |].
Qed.

Lemma write_text_file_inv path content w w1 :
  write_text_file path content w = (Returned tt, w1) ->
  can_write w path
  /\ w1 = set_fs (<[os_path_abspath (cwd w) path := File content]> (fs w)) w.
Proof.
  unfold write_text_file, can_write; cbn zeta.
  destruct (fs w !! os_path_abspath (cwd w) path) as [[] |] eqn:Hp;
    destruct (fs w !! os_path_dirname (os_path_abspath (cwd w) path))
      as [[] |] eqn:Hd;
    intros [= <-]; done.
Qed.

(** Writing a file moves neither the working directory nor the output. *)
Lemma write_text_file_frame path content w :
  cwd (write_text_file path content w).2 = cwd w
  /\ stdout (write_text_file path content w).2 = stdout w.
Proof.
  unfold write_text_file.
  by destruct (fs w !! os_path_abspath (cwd w) path) as [[] |];
    destruct (fs w !! os_path_dirname (os_path_abspath (cwd w) path))
      as [[] |].
Qed.

(** The scope of [pushd]: the body runs in the directory, the working
    directory is the old one afterwards however the body ends, and the
    rest of the world is as the body left it. *)
Lemma pushd_restores {A : Type} (path : string) (body : M A) (w : World) :
  let inner := body (set_cwd (os_path_abspath (cwd w) path) w) in
  pushd path body w = (inner.1, set_cwd (cwd w) inner.2).
Proof. unfold pushd. by destruct (body _). Qed.

(* ===================================================================== *)
(** * Facts: the generators and the commands *)
(* ===================================================================== *)

(** How [generate_component_instance] goes on once the template is
    copied: the hook runs inside [pushd], then the descriptor is written. *)
Lemma generate_component_instance_run root name cls gp w w1 :
  generate_project (component_instance_project_args root name cls)
    (add_stdout (component_instance_message root name) w) = (Returned tt, w1) ->
  generate_component_instance root name cls gp w
  = match call_generate_files cls gp
            (set_cwd (os_path_abspath (cwd w1) (os_path_join root name)) w1) with
    | (Returned r, w2) =>
        write_text_file (os_path_join (os_path_join root name) "component.yaml")
          (yaml_dump present_scalar (D := ComponentDumper) false
             (component_data (get_component_name cls) r))
          (set_cwd (cwd w1) w2)
    | (Exited code, w2) => (Exited code, set_cwd (cwd w1) w2)
    | (Raised exn, w2) => (Raised exn, set_cwd (cwd w1) w2)
    end.
Proof.
  intros Hcopy. unfold generate_component_instance.
  rewrite bind_run. cbn [click_echo]. rewrite bind_run, Hcopy, bind_run.
  rewrite pushd_restores. cbn zeta. rewrite bind_run.
  by destruct (call_generate_files cls gp _) as [[r | code | exn] w2].
Qed.

(** The [component] command, check by check. *)
Lemma generate_component_command_cases ty name json extra w :
  generate_component_command ty name json extra w =
  match resolve_code_location_root (fs w) (os_path_abspath (cwd w) ".") with
  | None => (Exited 1, add_stdout not_in_code_location_message w)
  | Some _ =>
      match resolve_code_location_root (fs w) (os_path_abspath (cwd w) (cwd w)) with
      | None => (Raised "DagsterError", w)
      | Some root =>
          let context := {| cl_root_path := root;
                            cl_component_registry := component_registry |} in
          match component_registry !! ty with
          | None => (Exited 1, add_stdout (unknown_component_type_message ty) w)
          | Some cls =>
              if path_exists w (os_path_join (component_instances_root_path context) name)
              then (Exited 1,
                    add_stdout (component_instance_exists_message name) w)
              else (resolve_generate_params cls json extra
                      ≫= generate_component_instance
                            (component_instances_root_path context) name cls) w
          end
      end
  end.
Proof.
  unfold generate_component_command. rewrite bind_run.
  unfold is_inside_code_location_project at 1.
  destruct (resolve_code_location_root (fs w) (os_path_abspath (cwd w) "."))
    as [root0 |]; [| done].
  rewrite bool_decide_eq_true_2 by by eexists. cbn [negb].
  rewrite bind_run. cbn [os_getcwd]. rewrite bind_run.
  unfold CodeLocationProjectContext_from_path at 1.
  destruct (resolve_code_location_root (fs w) (os_path_abspath (cwd w) (cwd w)))
    as [root |]; [| done].
  unfold has_component_type, get_component_type. cbn [cl_component_registry].
  destruct (component_registry !! ty) as [cls |].
  - rewrite bool_decide_eq_true_2 by by eexists. cbn [negb].
    rewrite bind_run. unfold has_component_instance, os_path_exists.
    by destruct (path_exists w _).
  - by rewrite bool_decide_eq_false_2 by by intros [? ?].
Qed.

(** The same for a process whose working directory is an absolute path,
    as [os.getcwd()] always is. *)
Lemma generate_component_command_absolute ty name json extra w :
  starts_with_slash (cwd w) = true ->
  generate_component_command ty name json extra w =
  match resolve_code_location_root (fs w) (os_path_abspath (cwd w) ".") with
  | None => (Exited 1, add_stdout not_in_code_location_message w)
  | Some root =>
      let context := {| cl_root_path := root;
                        cl_component_registry := component_registry |} in
      match component_registry !! ty with
      | None => (Exited 1, add_stdout (unknown_component_type_message ty) w)
      | Some cls =>
          if path_exists w (os_path_join (component_instances_root_path context) name)
          then (Exited 1, add_stdout (component_instance_exists_message name) w)
          else (resolve_generate_params cls json extra
                  ≫= generate_component_instance
                        (component_instances_root_path context) name cls) w
      end
  end.
Proof.
  intros Habs. rewrite generate_component_command_cases.
  rewrite (abspath_cwd_dot _ Habs).
  by destruct (resolve_code_location_root _ _).
Qed.

Lemma resolve_generate_params_json cls schema json extra :
  generate_params_schema cls = Some schema ->
  resolve_generate_params cls (Some json) extra
  = TypeAdapter_validate_json schema json.
Proof. intros H. unfold resolve_generate_params. by rewrite H. Qed.

(** C2.  When the absolute form of the path names something that exists,
    [generate deployment] prints its message, exits with status 1, and
    leaves the file system (and the working directory) as they were. *)
Theorem generate_deployment_existing_path (path : string) (w : World) :
  starts_with_slash (cwd w) = true ->
  is_Some (fs w !! os_path_abspath (cwd w) path) ->
  generate_deployment_command path w
  = (Exited 1,
     add_stdout (path_exists_message (os_path_abspath (cwd w) path)) w)
  /\ exit_status (generate_deployment_command path w).1 = 1
  /\ fs (generate_deployment_command path w).2 = fs w
  /\ cwd (generate_deployment_command path w).2 = cwd w
  /\ stdout (generate_deployment_command path w).2
     = stdout w ++ [path_exists_message (os_path_abspath (cwd w) path)].
Proof.
  intros Habs Hexists.
  assert (generate_deployment_command path w
          = (Exited 1,
             add_stdout (path_exists_message (os_path_abspath (cwd w) path)) w))
    as ->; [| done].
  unfold generate_deployment_command. rewrite bind_run. cbn [os_getcwd].
  rewrite bind_run. unfold os_path_exists, path_exists.
  rewrite abspath_idempotent by done.
  by rewrite bool_decide_eq_true_2.
Qed.

(** C3.  The three checks of [generate component], in their order: outside
    a code location the command exits with status 1 whatever the type and
    the name; inside, an unregistered type exits with status 1 whatever
    the name; inside with a registered type, a name that is taken exits
    with status 1.  Each time only the message is added to the output:
    the file system is untouched and the generator is not run, whatever
    the template copier would do.  When all three pass, the parameters
    are resolved and the generator runs. *)
Theorem generate_component_preconditions
    (ty name : string) (json : option string) (extra : list string) (w : World) :
  starts_with_slash (cwd w) = true ->
  let location :=
    resolve_code_location_root (fs w) (os_path_abspath (cwd w) ".") in
  let instances root :=
    component_instances_root_path
      {| cl_root_path := root; cl_component_registry := component_registry |} in
  let run := generate_component_command ty name json extra w in
  (location = None ->
     run = (Exited 1, add_stdout not_in_code_location_message w))
  /\ (forall root,
        location = Some root -> component_registry !! ty = None ->
        run = (Exited 1, add_stdout (unknown_component_type_message ty) w))
  /\ (forall root cls,
        location = Some root -> component_registry !! ty = Some cls ->
        path_exists w (os_path_join (instances root) name) = true ->
        run = (Exited 1, add_stdout (component_instance_exists_message name) w))
  /\ (forall root cls,
        location = Some root -> component_registry !! ty = Some cls ->
        path_exists w (os_path_join (instances root) name) = false ->
        run = (resolve_generate_params cls json extra
                 ≫= generate_component_instance (instances root) name cls) w)
  /\ (forall msg, fs (add_stdout msg w) = fs w /\ cwd (add_stdout msg w) = cwd w).
Proof.
  intros Habs location instances run. subst run.
  rewrite generate_component_command_absolute by done. fold location.
  repeat split.
  - by intros ->.
  - intros root -> Hty. cbn zeta. by rewrite Hty.
  - intros root cls -> Hty Htaken. cbn zeta. rewrite Hty.
    fold (instances root). by rewrite Htaken.
  - intros root cls -> Hty Hfree. cbn zeta. rewrite Hty.
    fold (instances root). by rewrite Hfree.
Qed.

(** C5.  With a declared schema and [--json-params] given, whatever the
    extra arguments are: once the three checks have passed, the command
    validates the JSON string against the schema and hands the value
    obtained to the generator, or ends on the [ValidationError] when the
    schema rejects the string; neither the extra arguments nor the [cli]
    of the schema play a part, and the command does the same with the
    extra arguments as without. *)
Theorem json_params_take_precedence
    (ty name json : string) (extra : list string) (w : World)
    (cls : ComponentType) (schema : GenerateParamsSchema) :
  component_registry !! ty = Some cls ->
  generate_params_schema cls = Some schema ->
  let instances root :=
    component_instances_root_path
      {| cl_root_path := root; cl_component_registry := component_registry |} in
  (forall root,
     starts_with_slash (cwd w) = true ->
     resolve_code_location_root (fs w) (os_path_abspath (cwd w) ".")
       = Some root ->
     path_exists w (os_path_join (instances root) name) = false ->
     generate_component_command ty name (Some json) extra w
     = match validate_json schema json with
       | Some parsed =>
           generate_component_instance (instances root) name cls parsed w
       | None => (Raised "ValidationError", w)
       end)
  /\ resolve_generate_params cls (Some json) extra
     = TypeAdapter_validate_json schema json
  /\ generate_component_command ty name (Some json) extra w
     = generate_component_command ty name (Some json) [] w.
Proof.
  intros Hty Hschema instances. split; [| split].
  - intros root Habs Hroot Hfree.
    rewrite generate_component_command_absolute by done.
    rewrite Hroot, Hty. cbn zeta. fold (instances root). rewrite Hfree.
    rewrite (resolve_generate_params_json cls schema) by done.
    unfold TypeAdapter_validate_json.
    destruct (validate_json schema json) as [parsed |]; [| done].
    by rewrite bind_run.
  - by apply resolve_generate_params_json.
  - rewrite !generate_component_command_cases, Hty.
    by rewrite !(resolve_generate_params_json cls schema).
Qed.

(** C6, as the code has it.  A JSON string that the schema rejects makes
    the command end with status 1 and the file system and the working
    directory untouched, so no [component.yaml] is created.  When the
    three checks pass, what ends the command is the [ValidationError]
    that propagates: nothing is echoed and [sys.exit] is not called. *)
Theorem invalid_json_params_raise
    (ty name json : string) (extra : list string) (w : World)
    (cls : ComponentType) (schema : GenerateParamsSchema) :
  starts_with_slash (cwd w) = true ->
  component_registry !! ty = Some cls ->
  generate_params_schema cls = Some schema ->
  validate_json schema json = None ->
  let run := generate_component_command ty name (Some json) extra w in
  exit_status run.1 = 1 /\ fs run.2 = fs w /\ cwd run.2 = cwd w
  /\ (forall root,
        resolve_code_location_root (fs w) (os_path_abspath (cwd w) ".")
          = Some root ->
        path_exists w
          (os_path_join
             (component_instances_root_path
                {| cl_root_path := root;
                   cl_component_registry := component_registry |}) name)
          = false ->
        run = (Raised "ValidationError", w)).
Proof.
  intros Habs Hty Hschema Hbad run. subst run.
  rewrite generate_component_command_absolute by done.
  rewrite Hty. cbn zeta.
  rewrite (resolve_generate_params_json cls schema) by done.
  unfold TypeAdapter_validate_json. rewrite Hbad.
  destruct (resolve_code_location_root _ _) as [root |]; [| by repeat split].
  destruct (path_exists w _) eqn:Htaken.
  - repeat split; try done. intros ? [= <-]. by rewrite Htaken.
  - by repeat split.
Qed.

(** C7.  Once the template is copied, the hook of the component type runs
    with the working directory set to the new instance directory; however
    the hook ends, the working directory is afterwards what it was before,
    and the rest of the world is what the hook left: on failure nothing
    else happens, on success the descriptor is written from there. *)
Theorem component_files_scoped_cwd
    (root name : string) (cls : ComponentType) (gp : value) (w w1 : World) :
  generate_project (component_instance_project_args root name cls)
    (add_stdout (component_instance_message root name) w) = (Returned tt, w1) ->
  let dir := os_path_abspath (cwd w1) (os_path_join root name) in
  let hook := call_generate_files cls gp (set_cwd dir w1) in
  let final := generate_component_instance root name cls gp w in
  cwd (set_cwd dir w1) = dir
  /\ cwd final.2 = cwd w1
  /\ stdout final.2 = stdout hook.2
  /\ match hook.1 with
     | Returned r =>
         final = write_text_file
                   (os_path_join (os_path_join root name) "component.yaml")
                   (yaml_dump present_scalar (D := ComponentDumper) false
                      (component_data (get_component_name cls) r))
                   (set_cwd (cwd w1) hook.2)
     | Exited code => final = (Exited code, set_cwd (cwd w1) hook.2)
     | Raised exn => final = (Raised exn, set_cwd (cwd w1) hook.2)
     end.
Proof.
  intros Hcopy dir hook final. subst final.
  rewrite (generate_component_instance_run _ _ _ _ _ _ Hcopy).
  fold dir. fold hook.
  destruct hook as [[r | code | exn] w2]; cbn [fst snd]; try done.
  split; [done |].
  destruct (write_text_file_frame
              (os_path_join (os_path_join root name) "component.yaml")
              (yaml_dump present_scalar (D := ComponentDumper) false
                 (component_data (get_component_name cls) r))
              (set_cwd (cwd w1) w2)) as [Hcwd Hout].
  by rewrite Hcwd, Hout.
Qed.

(** C8.  What a dump with [ComponentDumper] writes does not depend on
    what was emitted before.  The line break of the override looks at the
    indentation only, not at the stream; so on a stream that already holds
    something the dumper appends the very bytes it writes on an empty one,
    and two dumps of a descriptor in a row write the same bytes twice.  On
    the file system, emitting a descriptor that has just been emitted
    changes nothing, and any two emissions leave the same content. *)
Theorem descriptor_emission_idempotent
    (data : list (string * value)) (path : string) (w w1 : World) :
  let dump := yaml_dump present_scalar (D := ComponentDumper) false data in
  let dump_to :=
    yaml_dump_to (D := ComponentDumper) present_scalar false data in
  let emit := write_text_file path dump in
  emit w = (Returned tt, w1) ->
  (forall written e,
     write_line_break (Dumper := ComponentDumper) (prepend written e)
     = prepend written (write_line_break (Dumper := ComponentDumper) e))
  /\ (forall written, flush (dump_to written) = flush written +:+ dump)
  /\ flush (dump_to (dump_to [])) = dump +:+ dump
  /\ emit w1 = (Returned tt, w1)
  /\ fs w1 !! os_path_abspath (cwd w) path = Some (File dump)
  /\ (forall w' w1', emit w' = (Returned tt, w1') ->
        fs w1' !! os_path_abspath (cwd w') path
        = fs w1 !! os_path_abspath (cwd w) path).
Proof.
  intros dump dump_to emit Hemit.
  assert (forall written, flush (dump_to written) = flush written +:+ dump)
    as Hto.
  { intros written. subst dump_to dump. unfold yaml_dump_to, yaml_dump.
    rewrite (expect_node_prepend [LF; LF] ComponentDumper_top
               ComponentDumper_elsewhere).
    rewrite (write_indent_prepend [LF; LF] ComponentDumper_top
               ComponentDumper_elsewhere).
    cbn [prepend stream]. by rewrite flush_app. }
  split.
  { intros written e.
    apply (write_line_break_prepend [LF; LF] ComponentDumper_top
             ComponentDumper_elsewhere). }
  split; [exact Hto |]. split; [by rewrite Hto, Hto |].
  subst emit.
  apply write_text_file_inv in Hemit as [[Hp Hd] ->].
  split; [| split].
  - rewrite write_text_file_ok.
    + unfold set_fs; cbn [fs cwd stdout]. by rewrite insert_insert_eq.
    + unfold can_write; cbn [set_fs fs cwd]. split.
      * by rewrite lookup_insert_eq.
      * rewrite lookup_insert_ne; [done |]. intros Heq.
        rewrite <- Heq in Hd. by rewrite Hd in Hp.
  - cbn [set_fs fs]. by rewrite lookup_insert_eq.
  - intros w' w1' [_ ->]%write_text_file_inv.
    cbn [set_fs fs]. by rewrite !lookup_insert_eq.
Qed.

(** [generate_component_type] calls the template copier once. *)
Lemma generate_component_type_run (root name : string) (w : World) :
  generate_component_type root name w
  = generate_project (component_type_project_args root name)
      (add_stdout (component_type_message root name) w).
Proof. done. Qed.

(** C10, as the code has it.  The hook is called with the parameters when
    they are truthy and with no argument otherwise.  When it returns [r],
    the descriptor written holds [r or {}] under [params]: never [None],
    the empty mapping whenever [r] is falsy, [r] itself otherwise,
    whatever it is; that is a mapping when the hook keeps to
    [Optional[Mapping]], which nothing checks. *)
Theorem component_params_never_null
    (root name : string) (cls : ComponentType) (gp r : value) (w w1 w2 : World) :
  generate_project (component_instance_project_args root name cls)
    (add_stdout (component_instance_message root name) w) = (Returned tt, w1) ->
  generate_files cls (if truthy gp then Some gp else None)
    (set_cwd (os_path_abspath (cwd w1) (os_path_join root name)) w1)
  = (Returned r, w2) ->
  call_generate_files cls gp
  = generate_files cls (if truthy gp then Some gp else None)
  /\ (truthy gp = false -> call_generate_files cls gp = generate_files cls None)
  /\ exists params,
       generate_component_instance root name cls gp w
       = write_text_file
           (os_path_join (os_path_join root name) "component.yaml")
           (yaml_dump present_scalar (D := ComponentDumper) false
              [("type", VStr (get_component_name cls)); ("params", params)])
           (set_cwd (cwd w1) w2)
       /\ params = py_or r (VDict [])
       /\ params <> VNone
       /\ (truthy r = false -> params = VDict [])
       /\ (truthy r = true -> params = r)
       /\ (is_optional_mapping r = true -> is_mapping params = true).
Proof.
  intros Hcopy Hhook.
  assert (call_generate_files cls gp
          = generate_files cls (if truthy gp then Some gp else None)) as Hcall.
  { unfold call_generate_files. by destruct (truthy gp). }
  split; [done |]. split; [intros Hgp; by rewrite Hcall, Hgp |].
  exists (py_or r (VDict [])).
  rewrite (generate_component_instance_run _ _ _ _ _ _ Hcopy), Hcall, Hhook.
  split; [done |]. split; [done |]. unfold py_or.
  repeat split.
  - destruct (truthy r) eqn:Hr; [| done]. by destruct r.
  - by intros ->.
  - by intros ->.
  - destruct (truthy r) eqn:Hr; [| done]. by destruct r.
Qed.

(** C1, as the code has it.  With a declared schema and a JSON string it
    accepts, [generate component] (inside a code location, the type
    registered, the name free, the template copied, the hook returning
    [r], the descriptor writable) returns normally and leaves a
    [component.yaml] that is the dump of [type], the registry key of the
    component type, and [params], [r or {}]: what the hook returned, not
    the parsed JSON, which is only the argument the hook is called with
    (when truthy). *)
Theorem generate_component_json_params
    (ty name json : string) (extra : list string) (w w1 w2 : World)
    (root : string) (cls : ComponentType) (schema : GenerateParamsSchema)
    (parsed r : value) :
  let instances :=
    component_instances_root_path
      {| cl_root_path := root; cl_component_registry := component_registry |} in
  let descriptor := os_path_join (os_path_join instances name) "component.yaml" in
  starts_with_slash (cwd w) = true ->
  resolve_code_location_root (fs w) (os_path_abspath (cwd w) ".") = Some root ->
  component_registry !! ty = Some cls ->
  path_exists w (os_path_join instances name) = false ->
  generate_params_schema cls = Some schema ->
  validate_json schema json = Some parsed ->
  generate_project (component_instance_project_args instances name cls)
    (add_stdout (component_instance_message instances name) w)
  = (Returned tt, w1) ->
  generate_files cls (if truthy parsed then Some parsed else None)
    (set_cwd (os_path_abspath (cwd w1) (os_path_join instances name)) w1)
  = (Returned r, w2) ->
  can_write (set_cwd (cwd w1) w2) descriptor ->
  let final := generate_component_command ty name (Some json) extra w in
  final.1 = Returned tt
  /\ fs final.2 !! os_path_abspath (cwd w1) descriptor
     = Some (File (yaml_dump present_scalar (D := ComponentDumper) false
                     [("type", VStr (get_component_name cls));
                      ("params", py_or r (VDict []))]))
  /\ cwd final.2 = cwd w1.
Proof.
  intros instances descriptor Habs Hroot Hty Hfree Hschema Hjson Hcopy Hhook
    Hwrite final. subst final.
  rewrite generate_component_command_absolute by done.
  rewrite Hroot, Hty. cbn zeta. fold instances. rewrite Hfree.
  rewrite (resolve_generate_params_json cls schema) by done.
  unfold TypeAdapter_validate_json. rewrite Hjson.
  rewrite bind_run. cbn [mret M_ret].
  rewrite (generate_component_instance_run _ _ _ _ _ _ Hcopy).
  unfold call_generate_files.
  replace (if truthy parsed then generate_files cls (Some parsed)
           else generate_files cls None)
    with (generate_files cls (if truthy parsed then Some parsed else None))
    by by destruct (truthy parsed).
  rewrite Hhook. fold descriptor.
  rewrite write_text_file_ok by done.
  cbn [fst snd set_fs set_cwd fs cwd].
  by rewrite lookup_insert_eq.
Qed.

(* ===================================================================== *)
(** * More facts: the other commands *)
(* ===================================================================== *)

(** [generate_component_instance], step by step. *)
Lemma generate_component_instance_steps root name cls gp w :
  generate_component_instance root name cls gp w
  = match generate_project (component_instance_project_args root name cls)
            (add_stdout (component_instance_message root name) w) with
    | (Returned _, w1) =>
        match call_generate_files cls gp
                (set_cwd (os_path_abspath (cwd w1) (os_path_join root name)) w1) with
        | (Returned r, w2) =>
            write_text_file
              (os_path_join (os_path_join root name) "component.yaml")
              (yaml_dump present_scalar (D := ComponentDumper) false
                 (component_data (get_component_name cls) r))
              (set_cwd (cwd w1) w2)
        | (Exited code, w2) => (Exited code, set_cwd (cwd w1) w2)
        | (Raised exn, w2) => (Raised exn, set_cwd (cwd w1) w2)
        end
    | (Exited code, w1) => (Exited code, w1)
    | (Raised exn, w1) => (Raised exn, w1)
    end.
Proof.
  destruct (generate_project (component_instance_project_args root name cls)
              (add_stdout (component_instance_message root name) w))
    as [[[] | code | exn] w1] eqn:Hcopy.
  - by apply generate_component_instance_run.
  - unfold generate_component_instance. rewrite bind_run. cbn [click_echo].
    by rewrite bind_run, Hcopy.
  - unfold generate_component_instance. rewrite bind_run. cbn [click_echo].
    by rewrite bind_run, Hcopy.
Qed.

(** The [code-location] command, check by check. *)
Lemma generate_code_location_command_cases name w :
  generate_code_location_command name w =
  match resolve_deployment_root (fs w) (os_path_abspath (cwd w) ".") with
  | None => (Exited 1, add_stdout not_in_deployment_message w)
  | Some _ =>
      match resolve_deployment_root (fs w) (os_path_abspath (cwd w) (cwd w)) with
      | None => (Raised "DagsterError", w)
      | Some root =>
          let target :=
            os_path_join (code_location_root_path {| dp_root_path := root |})
              name in
          if path_exists w target
          then (Exited 1, add_stdout (code_location_exists_message name) w)
          else generate_project (code_location_project_args target)
                 (add_stdout (code_location_message target) w)
      end
  end.
Proof.
  unfold generate_code_location_command. rewrite bind_run.
  unfold is_inside_deployment_project at 1.
  destruct (resolve_deployment_root (fs w) (os_path_abspath (cwd w) "."))
    as [root0 |]; [| done].
  rewrite bool_decide_eq_true_2 by by eexists. cbn [negb].
  rewrite bind_run. cbn [os_getcwd]. rewrite bind_run.
  unfold DeploymentProjectContext_from_path at 1.
  destruct (resolve_deployment_root (fs w) (os_path_abspath (cwd w) (cwd w)))
    as [root |]; [| done].
  rewrite bind_run. unfold has_code_location, os_path_exists.
  cbn zeta. destruct (path_exists w _); [done |].
  unfold generate_code_location. by rewrite bind_run.
Qed.

(** The [component-type] command, check by check. *)
Lemma generate_component_type_command_cases name w :
  generate_component_type_command name w =
  match resolve_code_location_root (fs w) (os_path_abspath (cwd w) ".") with
  | None => (Exited 1, add_stdout not_in_code_location_message w)
  | Some _ =>
      match resolve_code_location_root (fs w) (os_path_abspath (cwd w) (cwd w)) with
      | None => (Raised "DagsterError", w)
      | Some root =>
          match component_registry !! name with
          | Some _ =>
              (Exited 1, add_stdout (component_type_exists_message name) w)
          | None =>
              generate_component_type
                (component_types_root_path
                   {| cl_root_path := root;
                      cl_component_registry := component_registry |})
                name w
          end
      end
  end.
Proof.
  unfold generate_component_type_command. rewrite bind_run.
  unfold is_inside_code_location_project at 1.
  destruct (resolve_code_location_root (fs w) (os_path_abspath (cwd w) "."))
    as [root0 |]; [| done].
  rewrite bool_decide_eq_true_2 by by eexists. cbn [negb].
  rewrite bind_run. cbn [os_getcwd]. rewrite bind_run.
  unfold CodeLocationProjectContext_from_path at 1.
  destruct (resolve_code_location_root (fs w) (os_path_abspath (cwd w) (cwd w)))
    as [root |]; [| done].
  unfold has_component_type. cbn [cl_component_registry].
  destruct (component_registry !! name) as [cls |].
  - by rewrite bool_decide_eq_true_2 by by eexists.
  - by rewrite bool_decide_eq_false_2 by by intros [? ?].
Qed.

(** X1.  When nothing exists at the absolute form of the path,
    [generate deployment] announces the deployment and hands the path, as
    it was typed and not in its absolute form, to the template copier
    with the deployment placeholder and no project name; how the command
    ends is how the copier ends. *)
Theorem generate_deployment_free_path (path : string) (w : World) :
  starts_with_slash (cwd w) = true ->
  fs w !! os_path_abspath (cwd w) path = None ->
  generate_deployment_command path w
  = generate_project
      {| pa_path := path;
         pa_name_placeholder := "DEPLOYMENT_NAME_PLACEHOLDER";
         pa_templates_path :=
           os_path_join (os_path_join module_dir "templates")
             "DEPLOYMENT_NAME_PLACEHOLDER";
         pa_project_name := None;
         pa_other_template_vars := [] |}
      (add_stdout ("Creating a Dagster deployment at " +:+ path +:+ ".") w).
Proof.
  intros Habs Hfree.
  unfold generate_deployment_command. rewrite bind_run. cbn [os_getcwd].
  rewrite bind_run. unfold os_path_exists, path_exists.
  rewrite abspath_idempotent by done.
  rewrite bool_decide_eq_false_2 by (rewrite Hfree; by intros [? ?]).
  unfold generate_deployment. by rewrite bind_run.
Qed.

(** X2.  The two checks of [generate code-location], in their order:
    outside a deployment project the command exits with status 1 whatever
    the name; inside, a name that exists under the code-location root
    exits with status 1.  Each time only the message is added to the
    output and the template copier is not run.  When both pass, the
    copier receives the path of the name under the code-location root. *)
Theorem generate_code_location_preconditions (name : string) (w : World) :
  starts_with_slash (cwd w) = true ->
  let location :=
    resolve_deployment_root (fs w) (os_path_abspath (cwd w) ".") in
  let target root :=
    os_path_join (code_location_root_path {| dp_root_path := root |}) name in
  let run := generate_code_location_command name w in
  (location = None ->
     run = (Exited 1, add_stdout not_in_deployment_message w))
  /\ (forall root,
        location = Some root -> path_exists w (target root) = true ->
        run = (Exited 1, add_stdout (code_location_exists_message name) w))
  /\ (forall root,
        location = Some root -> path_exists w (target root) = false ->
        run = generate_project (code_location_project_args (target root))
                (add_stdout (code_location_message (target root)) w)).
Proof.
  intros Habs location target run. subst run.
  rewrite generate_code_location_command_cases, (abspath_cwd_dot _ Habs).
  fold location.
  split; [| split].
  - by intros ->.
  - intros root -> Htaken. cbn zeta. fold (target root). by rewrite Htaken.
  - intros root -> Hfree. cbn zeta. fold (target root). by rewrite Hfree.
Qed.

(** X3.  The two checks of [generate component-type], in their order:
    outside a code location the command exits with status 1 whatever the
    name; inside, a name the registry already holds exits with status 1,
    whatever is on disk.  Each time only the message is added to the
    output.  When both pass, the generator runs on the component-types
    root of the project. *)
Theorem generate_component_type_preconditions (name : string) (w : World) :
  starts_with_slash (cwd w) = true ->
  let location :=
    resolve_code_location_root (fs w) (os_path_abspath (cwd w) ".") in
  let run := generate_component_type_command name w in
  (location = None ->
     run = (Exited 1, add_stdout not_in_code_location_message w))
  /\ (forall root cls,
        location = Some root -> component_registry !! name = Some cls ->
        run = (Exited 1, add_stdout (component_type_exists_message name) w))
  /\ (forall root,
        location = Some root -> component_registry !! name = None ->
        run = generate_component_type
                (component_types_root_path
                   {| cl_root_path := root;
                      cl_component_registry := component_registry |})
                name w).
Proof.
  intros Habs location run. subst run.
  rewrite generate_component_type_command_cases, (abspath_cwd_dot _ Habs).
  fold location.
  split; [| split].
  - by intros ->.
  - intros root cls -> Hty. cbn zeta. by rewrite Hty.
  - intros root -> Hty. cbn zeta. by rewrite Hty.
Qed.

(** X4.  A component type that declares no schema takes no parameters:
    [--json-params] is neither validated nor used, so any string, even
    one that is not JSON, gives the run that no [--json-params] gives, and
    the hook is called without argument. *)
Theorem json_params_ignored_without_schema
    (ty name : string) (json : option string) (extra : list string)
    (w : World) (cls : ComponentType) :
  component_registry !! ty = Some cls ->
  generate_params_schema cls = None ->
  resolve_generate_params cls json extra = mret VNone
  /\ call_generate_files cls VNone = generate_files cls None
  /\ generate_component_command ty name json extra w
     = generate_component_command ty name None [] w.
Proof.
  intros Hty Hschema.
  assert (forall j e, resolve_generate_params cls j e = mret VNone) as Hres.
  { intros j e. unfold resolve_generate_params. by rewrite Hschema. }
  split; [apply Hres |]. split; [done |].
  rewrite !generate_component_command_cases, Hty.
  by rewrite !Hres.
Qed.


(** X6.  When the template copier does not return normally,
    [generate_component_instance] ends as the copier ended, in the world
    the copier left: the hook of the component type is not called and no
    descriptor is written, whatever the hook and the parameters are. *)
Theorem generate_component_instance_copier_fails
    (root name : string) (cls : ComponentType) (gp : value)
    (w w1 : World) (o : outcome unit) :
  generate_project (component_instance_project_args root name cls)
    (add_stdout (component_instance_message root name) w) = (o, w1) ->
  o <> Returned tt ->
  generate_component_instance root name cls gp w = (o, w1).
Proof.
  intros Hcopy Ho. rewrite generate_component_instance_steps, Hcopy.
  by destruct o as [[] | code | exn].
Qed.

(** X7.  What a normal return of [generate component] guarantees: the
    place is inside a code location, the type is registered, the name was
    free, and in the final world the descriptor of the instance is a file
    that holds the dump of [type], the registry key of that type, and of
    [params], a value that is not [None]. *)
Theorem generate_component_success
    (ty name : string) (json : option string) (extra : list string)
    (w final : World) :
  starts_with_slash (cwd w) = true ->
  generate_component_command ty name json extra w = (Returned tt, final) ->
  exists root cls params,
    let instances :=
      component_instances_root_path
        {| cl_root_path := root; cl_component_registry := component_registry |} in
    resolve_code_location_root (fs w) (os_path_abspath (cwd w) ".") = Some root
    /\ component_registry !! ty = Some cls
    /\ path_exists w (os_path_join instances name) = false
    /\ params <> VNone
    /\ fs final
         !! os_path_abspath (cwd final)
              (os_path_join (os_path_join instances name) "component.yaml")
       = Some (File (yaml_dump present_scalar (D := ComponentDumper) false
                       [("type", VStr (get_component_name cls));
                        ("params", params)])).
Proof.
  intros Habs Hrun.
  rewrite generate_component_command_absolute in Hrun by done.
  destruct (resolve_code_location_root _ _) as [root |]; [| done].
  cbn zeta in Hrun.
  destruct (component_registry !! ty) as [cls |]; [| done].
  destruct (path_exists w _) eqn:Hfree; [done |].
  rewrite bind_run in Hrun.
  destruct (resolve_generate_params cls json extra w) as [[gp | |] w0];
    [| done | done].
  rewrite generate_component_instance_steps in Hrun.
  destruct (generate_project _ _) as [[[] | |] w1]; [| done | done].
  destruct (call_generate_files cls gp _) as [[r | |] w2]; [| done | done].
  apply write_text_file_inv in Hrun as [_ ->].
  exists root, cls, (py_or r (VDict [])). cbn zeta.
  split; [done |]. split; [done |]. split; [done |]. split.
  - unfold py_or. destruct (truthy r) eqn:Hr; [| done]. by destruct r.
  - cbn [set_fs set_cwd fs cwd]. by rewrite lookup_insert_eq.
Qed.

(* ===================================================================== *)
(** * More facts: the dumper on any top-level mapping *)
(* ===================================================================== *)

Lemma join_with_cons (sep b : string) (bs : list string) :
  join_with sep (b :: bs) = b +:+ flush (map (fun x => sep +:+ x) bs).
Proof.
  revert b. induction bs as [| c bs IH]; intros b.
  - cbn [join_with map flush foldr]. by rewrite string_app_nil_r.
  - change (join_with sep (b :: c :: bs))
      with (b +:+ sep +:+ join_with sep (c :: bs)).
    rewrite IH. cbn [map]. by rewrite flush_cons, string_app_assoc.
Qed.

Section TopLevel.

Context `{D : Dumper} (sep : list string).
Hypothesis write_line_break_top : forall e,
  indent e = Some 0%nat ->
  write_line_break e = MkEmitter (indent e) 0 true true (stream e ++ sep).
Hypothesis write_line_break_elsewhere : forall e,
  indent e <> Some 0%nat -> write_line_break e = Emitter_write_line_break e.

(** Between two entries of the top-level mapping the line is broken by
    [sep]. *)
Lemma write_indent_between_entries e :
  indent e = Some 0%nat -> indention e = false ->
  write_indent e = prepend (stream e ++ sep) at_top_line_start.
Proof.
  intros Hi Hn. unfold write_indent. rewrite Hn, Hi. cbn [negb orb default].
  rewrite write_line_break_top by done. rewrite Hi.
  cbn [column indent Nat.ltb Nat.leb].
  unfold prepend, at_top_line_start; cbn. by rewrite app_nil_r.
Qed.

(** The value of a top-level entry that is no non-empty list is written as
    the stock emitter writes it. *)
Lemma expect_node_top_value v e :
  (forall items, v = VList items -> items = []) ->
  indent e = Some 0%nat ->
  expect_node present_scalar true false (represent false v) e
  = expect_node present_scalar (D := yaml_Dumper) true false
      (represent false v) e.
Proof.
  intros Hv Hi. destruct v as [| b | n | s | items | entries]; try done.
  - by rewrite (Hv items eq_refl).
  - change (represent false (VDict entries))
      with (NMapping (map (fun '(k, n) => (Scalar tag_str k, n))
                        (map (fun '(k, v) => (k, represent false v)) entries))).
    apply (expect_block_mapping_agree write_line_break_elsewhere).
    by eexists.
Qed.

(** One top-level entry, from the start of its line. *)
Lemma top_entry_after_indent kv e pre :
  top_entry kv ->
  write_indent e = prepend pre at_top_line_start ->
  let e' := expect_block_mapping_key present_scalar
              (expect_node present_scalar) e
              (Scalar tag_str kv.1, represent false kv.2) in
  indent e' = Some 0%nat /\ indention e' = false
  /\ flush (stream e') = flush pre +:+ entry_block kv.
Proof.
  destruct kv as [k v]. intros [Hkey Hv] Hindent. cbn [fst snd] in *.
  unfold expect_block_mapping_key. cbn [fst snd]. rewrite Hkey, Hindent.
  rewrite expect_scalar_prepend, write_indicator_prepend.
  set (key_text := present_scalar true 2%nat 0%nat (Scalar tag_str k)).
  change (write_indicator ":" false false false
            (expect_scalar present_scalar true (Scalar tag_str k)
               at_top_line_start))
    with (prepend [key_text; ":"]
            (MkEmitter (Some 0%nat) (column_after 0 key_text + 1)
               false false [])).
  rewrite !(expect_node_prepend sep
              write_line_break_top write_line_break_elsewhere).
  rewrite expect_node_top_value by done.
  cbn zeta. split; [| split].
  - cbn [prepend indent]. by rewrite expect_node_indent.
  - cbn [prepend indention]. apply expect_node_indention.
  - cbn [prepend stream]. unfold entry_block. cbn [fst snd]. fold key_text.
    rewrite !flush_app. cbn [flush foldr].
    by rewrite !string_app_assoc.
Qed.

Lemma foldl_top_entries (entries : list (string * value)) :
  Forall top_entry entries ->
  forall e, indent e = Some 0%nat -> indention e = false ->
    let e' :=
      foldl (expect_block_mapping_key present_scalar
               (expect_node present_scalar)) e
        (map (fun '(k, n) => (Scalar tag_str k, n))
           (map (fun '(k, v) => (k, represent false v)) entries)) in
    indent e' = Some 0%nat /\ indention e' = false
    /\ flush (stream e')
       = flush (stream e)
         +:+ flush (map (fun kv => flush sep +:+ entry_block kv) entries).
Proof.
  induction 1 as [| [k v] entries Hkv _ IH]; intros e Hi Hn.
  - cbn [map foldl flush foldr]. by rewrite string_app_nil_r.
  - cbn [map foldl].
    destruct (top_entry_after_indent (k, v) e (stream e ++ sep) Hkv
                (write_indent_between_entries e Hi Hn))
      as (Hi' & Hn' & Hout). cbn [fst snd] in *.
    destruct (IH _ Hi' Hn') as (Hi'' & Hn'' & Hout'').
    cbn zeta. split; [done |]. split; [done |].
    rewrite Hout'', Hout, flush_app, flush_cons.
    by rewrite !string_app_assoc.
Qed.

(** The dump of a mapping of such entries: their blocks, [sep] between
    them, one line break at the end. *)
Lemma yaml_dump_top_entries (data : list (string * value)) :
  data <> [] -> Forall top_entry data ->
  yaml_dump present_scalar false data
  = join_with (flush sep) (map entry_block data) +:+ LF.
Proof.
  destruct data as [| [k v] data]; [done |]. intros _ Hdata.
  inversion Hdata as [| ? ? Hkv Hrest]; subst.
  unfold yaml_dump.
  change (represent false (VDict ((k, v) :: data)))
    with (NMapping ((Scalar tag_str k, represent false v)
                    :: map (fun '(k, n) => (Scalar tag_str k, n))
                         (map (fun '(k, v) => (k, represent false v)) data))).
  cbn [expect_node foldl].
  change (increase_indent false false initial_emitter) with at_top_line_start.
  destruct (top_entry_after_indent (k, v) at_top_line_start [] Hkv eq_refl)
    as (Hi & Hn & Hout). cbn [fst snd] in *.
  destruct (foldl_top_entries data Hrest _ Hi Hn) as (Hi' & Hn' & Hout').
  set (e := foldl _ _ _) in *.
  unfold write_indent.
  cbn [set_indent indent column whitespace indention stream initial_emitter default].
  rewrite Hn'. cbn [negb orb].
  rewrite write_line_break_elsewhere by done.
  unfold Emitter_write_line_break.
  cbn [indent column whitespace indention stream Nat.ltb Nat.leb].
  change (stream (set_indent None e)) with (stream e).
  rewrite flush_app, Hout', Hout. cbn [map flush foldr].
  rewrite join_with_cons.
  rewrite map_map.
  by rewrite ?string_app_assoc, ?string_app_nil_r.
Qed.

(** One scalar item of a sequence at indentation 0. *)
Lemma expect_block_sequence_item_top e v s :
  indent e = Some 0%nat -> indention e = false ->
  scalar_of v = Some s ->
  let e' := expect_block_sequence_item (expect_node present_scalar) e
              (represent false v) in
  indent e' = Some 0%nat /\ indention e' = false
  /\ flush (stream e') = flush (stream e) +:+ top_item_line (flush sep) v.
Proof.
  intros Hi Hn Hs. unfold top_item_line. rewrite Hs.
  unfold scalar_of in Hs.
  destruct (represent false v) as [s' | |] eqn:Hv; [| done | done].
  injection Hs as ->.
  unfold expect_block_sequence_item.
  rewrite write_indent_between_entries by done.
  cbn -[flush]. split; [done |]. split; [done |].
  rewrite !flush_app. cbn [flush foldr].
  by rewrite !string_app_assoc, !string_app_nil_r.
Qed.

Lemma foldl_top_items (items : list value) :
  Forall (fun v => is_Some (scalar_of v)) items ->
  forall e, indent e = Some 0%nat -> indention e = false ->
    let e' := foldl (expect_block_sequence_item (expect_node present_scalar))
                e (map (represent false) items) in
    indent e' = Some 0%nat /\ indention e' = false
    /\ flush (stream e')
       = flush (stream e) +:+ flush (map (top_item_line (flush sep)) items).
Proof.
  induction 1 as [| v items [s Hs] _ IH]; intros e Hi Hn.
  - cbn [map foldl flush foldr]. by rewrite string_app_nil_r.
  - cbn [map foldl].
    destruct (expect_block_sequence_item_top e v s Hi Hn Hs)
      as (Hi' & Hn' & Hout).
    destruct (IH _ Hi' Hn') as (Hi'' & Hn'' & Hout'').
    cbn zeta. split; [done |]. split; [done |].
    rewrite Hout'', Hout, flush_cons.
    by rewrite !string_app_assoc.
Qed.

(** A top-level entry whose value is a non-empty list of scalars: the
    list is not indented, so every item follows a line break written at
    indentation 0. *)
Lemma top_list_entry_after_indent k items e pre :
  check_simple_key (Scalar tag_str k) = true ->
  items <> [] -> Forall (fun v => is_Some (scalar_of v)) items ->
  write_indent e = prepend pre at_top_line_start ->
  let e' := expect_block_mapping_key present_scalar
              (expect_node present_scalar) e
              (Scalar tag_str k, represent false (VList items)) in
  indent e' = Some 0%nat /\ indention e' = false
  /\ flush (stream e')
     = flush pre +:+ present_scalar true 2%nat 0%nat (Scalar tag_str k) +:+ ":"
       +:+ flush (map (top_item_line (flush sep)) items).
Proof.
  intros Hkey Hne Hitems Hindent.
  unfold expect_block_mapping_key. cbn [fst snd]. rewrite Hkey, Hindent.
  rewrite expect_scalar_prepend, write_indicator_prepend.
  set (key_text := present_scalar true 2%nat 0%nat (Scalar tag_str k)).
  change (write_indicator ":" false false false
            (expect_scalar present_scalar true (Scalar tag_str k)
               at_top_line_start))
    with (prepend [key_text; ":"]
            (MkEmitter (Some 0%nat) (column_after 0 key_text + 1)
               false false [])).
  rewrite !(expect_node_prepend sep
              write_line_break_top write_line_break_elsewhere).
  set (e0 := MkEmitter (Some 0%nat) (column_after 0 key_text + 1) false false []).
  destruct items as [| v items]; [done |].
  change (represent false (VList (v :: items)))
    with (NSequence (represent false v :: map (represent false) items)).
  cbn [expect_node].
  change (increase_indent false (true && negb (indention e0)) e0) with e0.
  change (represent false v :: map (represent false) items)
    with (map (represent false) (v :: items)).
  destruct (foldl_top_items (v :: items) Hitems e0 eq_refl eq_refl)
    as (Hi & Hn & Hout).
  set (e1 := foldl _ e0 _) in *.
  cbn zeta. cbn [prepend set_indent indent indention stream].
  split; [done |]. split; [done |].
  rewrite !flush_app, Hout. cbn [flush foldr].
  by rewrite !string_app_assoc.
Qed.

(** The descriptor when [params] is a non-empty list of scalars. *)
Lemma yaml_dump_descriptor_list (key : string) (items : list value) :
  items <> [] -> Forall (fun v => is_Some (scalar_of v)) items ->
  yaml_dump present_scalar false [("type", VStr key); ("params", VList items)]
  = entry_block ("type", VStr key) +:+ flush sep
    +:+ present_scalar true 2%nat 0%nat (Scalar tag_str "params") +:+ ":"
    +:+ flush (map (top_item_line (flush sep)) items) +:+ LF.
Proof.
  intros Hne Hitems. unfold yaml_dump.
  change (represent false (VDict [("type", VStr key); ("params", VList items)]))
    with (NMapping [(Scalar tag_str "type", represent false (VStr key));
                    (Scalar tag_str "params", represent false (VList items))]).
  cbn [expect_node foldl].
  change (increase_indent false false initial_emitter) with at_top_line_start.
  assert (top_entry ("type", VStr key)) as Htype by (by split).
  destruct (top_entry_after_indent ("type", VStr key) at_top_line_start []
              Htype eq_refl) as (Hi & Hn & Hout). cbn [fst snd] in *.
  set (e1 := expect_block_mapping_key _ _ at_top_line_start _) in *.
  destruct (top_list_entry_after_indent "params" items e1 (stream e1 ++ sep)
              eq_refl Hne Hitems (write_indent_between_entries e1 Hi Hn))
    as (Hi' & Hn' & Hout').
  set (e2 := expect_block_mapping_key _ _ e1 _) in *.
  unfold write_indent.
  cbn [set_indent indent column whitespace indention stream initial_emitter default].
  rewrite Hn'. cbn [negb orb].
  rewrite write_line_break_elsewhere by done.
  unfold Emitter_write_line_break.
  cbn [indent column whitespace indention stream Nat.ltb Nat.leb].
  change (stream (set_indent None e2)) with (stream e2).
  rewrite flush_app, Hout', flush_app, Hout. cbn [flush foldr].
  by rewrite ?string_app_assoc, ?string_app_nil_r.
Qed.

End TopLevel.

(** X8.  The dumper on any mapping whose keys are simple and whose values
    are scalars, mappings or empty lists: the blocks of the entries, in
    the order of the mapping, exactly as the stock [yaml.Dumper] writes
    them, with one empty line between consecutive blocks where the stock
    dumper has a single line break, and one line break at the end. *)
Theorem top_level_entries_spaced (data : list (string * value)) :
  data <> [] -> Forall top_entry data ->
  yaml_dump present_scalar (D := ComponentDumper) false data
  = join_with (LF +:+ LF) (map entry_block data) +:+ LF
  /\ yaml_dump present_scalar (D := yaml_Dumper) false data
     = join_with LF (map entry_block data) +:+ LF.
Proof.
  intros Hne Hdata. split.
  - by rewrite (yaml_dump_top_entries [LF; LF]
                  ComponentDumper_top ComponentDumper_elsewhere).
  - by rewrite (yaml_dump_top_entries [LF]
                  yaml_Dumper_top yaml_Dumper_elsewhere).
Qed.

(** X9.  When the hook returns a non-empty list of scalars, the list is
    the value of the top-level key [params] and is not indented, so the
    override also fires before every item: each dash follows an empty
    line, where the stock dumper has the items on consecutive lines. *)
Theorem top_level_list_items_spaced (key : string) (items : list value) :
  items <> [] -> Forall (fun v => is_Some (scalar_of v)) items ->
  yaml_dump present_scalar (D := ComponentDumper) false
    (component_data key (VList items))
  = entry_block ("type", VStr key) +:+ LF +:+ LF
    +:+ present_scalar true 2%nat 0%nat (Scalar tag_str "params") +:+ ":"
    +:+ flush (map (top_item_line (LF +:+ LF)) items) +:+ LF
  /\ yaml_dump present_scalar (D := yaml_Dumper) false
       (component_data key (VList items))
     = entry_block ("type", VStr key) +:+ LF
       +:+ present_scalar true 2%nat 0%nat (Scalar tag_str "params") +:+ ":"
       +:+ flush (map (top_item_line LF) items) +:+ LF.
Proof.
  intros Hne Hitems.
  assert (component_data key (VList items)
          = [("type", VStr key); ("params", VList items)]) as ->.
  { unfold component_data, py_or. cbn [truthy].
    by rewrite bool_decide_eq_false_2. }
  split.
  - by rewrite (yaml_dump_descriptor_list [LF; LF]
                  ComponentDumper_top ComponentDumper_elsewhere).
  - by rewrite (yaml_dump_descriptor_list [LF]
                  yaml_Dumper_top yaml_Dumper_elsewhere).
Qed.

(** X10.  Below the top level the override is invisible: from an emitter
    whose indentation is positive, every node is written exactly as the
    stock [yaml.Dumper] writes it. *)
Theorem ComponentDumper_as_stock_below_top
    (n : node) (mapping_context simple_key : bool) (e : Emitter) (k : nat) :
  indent e = Some (S k) ->
  expect_node present_scalar (D := ComponentDumper) mapping_context simple_key n e
  = expect_node present_scalar (D := yaml_Dumper) mapping_context simple_key n e.
Proof.
  intros Hk. apply (expect_node_nested ComponentDumper_elsewhere). by exists k.
Qed.

End Generate.

(* ===================================================================== *)
(** * Camel-casing the name of a component type *)
(* ===================================================================== *)







(* ===================================================================== *)
(** * The theorems at work on the concrete installation *)
(* ===================================================================== *)

#[local] Abbreviation demo_component_command :=
  (generate_component_command Demo.module_dir Demo.copy_template
     Demo.plain_scalar Demo.registry (Demo.resolve_root "pyproject.toml")
     Demo.component_instances_root_path).

#[local] Abbreviation demo_component_instance :=
  (generate_component_instance Demo.module_dir Demo.copy_template
     Demo.plain_scalar).

#[local] Abbreviation demo_dump :=
  (yaml_dump Demo.plain_scalar (D := ComponentDumper) false).

(** The world once the template of the instance [name] has been copied. *)
#[local] Abbreviation demo_copied name cls :=
  (Demo.copy_template
     (component_instance_project_args Demo.module_dir "/repo/components" name cls)
     (add_stdout (component_instance_message "/repo/components" name)
        Demo.in_project)).2.

(** In the project, [lib] exists: the deployment command refuses it. *)
Lemma generate_deployment_existing_path_witness :
  (generate_deployment_command Demo.module_dir Demo.copy_template "lib"
     Demo.in_project).1 = Exited 1
  /\ fs (generate_deployment_command Demo.module_dir Demo.copy_template "lib"
           Demo.in_project).2 = fs Demo.in_project.
Proof.
  assert (starts_with_slash (cwd Demo.in_project) = true) as Habs
    by reflexivity.
  assert (is_Some (fs Demo.in_project
                     !! os_path_abspath (cwd Demo.in_project) "lib")) as Hex
    by (vm_compute; eexists; reflexivity).
  destruct (generate_deployment_existing_path Demo.module_dir
              Demo.copy_template "lib" Demo.in_project Habs Hex)
    as (Hrun & _ & Hfs & _).
  split; [by rewrite Hrun | exact Hfs].
Defined.

(** The three checks of the component command, one run for each. *)
Lemma generate_component_preconditions_witness :
  demo_component_command "project_component" "fresh" None [] Demo.outside
  = (Exited 1, add_stdout not_in_code_location_message Demo.outside)
  /\ demo_component_command "unknown" "existing" None [] Demo.in_project
     = (Exited 1,
        add_stdout (unknown_component_type_message "unknown") Demo.in_project)
  /\ demo_component_command "project_component" "existing" None [] Demo.in_project
     = (Exited 1,
        add_stdout (component_instance_exists_message "existing") Demo.in_project).
Proof.
  split; [| split].
  - apply (generate_component_preconditions Demo.module_dir Demo.copy_template
             Demo.plain_scalar Demo.registry (Demo.resolve_root "pyproject.toml")
             Demo.component_instances_root_path
             "project_component" "fresh" None [] Demo.outside).
    + reflexivity.
    + vm_compute. reflexivity.
  - apply (generate_component_preconditions Demo.module_dir Demo.copy_template
             Demo.plain_scalar Demo.registry (Demo.resolve_root "pyproject.toml")
             Demo.component_instances_root_path
             "unknown" "existing" None [] Demo.in_project) with "/repo".
    + reflexivity.
    + vm_compute. reflexivity.
    + vm_compute. reflexivity.
  - apply (generate_component_preconditions Demo.module_dir Demo.copy_template
             Demo.plain_scalar Demo.registry (Demo.resolve_root "pyproject.toml")
             Demo.component_instances_root_path
             "project_component" "existing" None [] Demo.in_project)
      with "/repo" Demo.project_component.
    + reflexivity.
    + vm_compute. reflexivity.
    + reflexivity.
    + vm_compute. reflexivity.
Defined.

(** With [--json-params] given and extra arguments too: the generator is
    handed what the schema makes of the JSON string. *)
Lemma json_params_take_precedence_witness :
  demo_component_command "project_component" "fresh" (Some Demo.jaffle_json)
    ["--flag"] Demo.in_project
  = demo_component_instance "/repo/components" "fresh" Demo.project_component
      (VDict [("project_path", VStr "jaffle_shop")]) Demo.in_project
  /\ demo_component_command "project_component" "fresh" (Some Demo.jaffle_json)
       ["--flag"] Demo.in_project
     = demo_component_command "project_component" "fresh"
         (Some Demo.jaffle_json) [] Demo.in_project.
Proof.
  destruct (json_params_take_precedence Demo.module_dir Demo.copy_template
              Demo.plain_scalar Demo.registry
              (Demo.resolve_root "pyproject.toml")
              Demo.component_instances_root_path
              "project_component" "fresh" Demo.jaffle_json ["--flag"]
              Demo.in_project Demo.project_component Demo.project_schema)
    as (Hrun & _ & Hextra).
  - vm_compute. reflexivity.
  - reflexivity.
  - split; [| exact Hextra].
    rewrite (Hrun "/repo"); [reflexivity | reflexivity | | ];
      vm_compute; reflexivity.
Defined.

(** A document the schema rejects: the command ends on the exception. *)
Lemma invalid_json_params_raise_witness :
  demo_component_command "project_component" "fresh" (Some "{bad") []
    Demo.in_project
  = (Raised "ValidationError", Demo.in_project).
Proof.
  apply (invalid_json_params_raise Demo.module_dir Demo.copy_template
           Demo.plain_scalar Demo.registry (Demo.resolve_root "pyproject.toml")
           Demo.component_instances_root_path
           "project_component" "fresh" "{bad" [] Demo.in_project
           Demo.project_component Demo.project_schema)
    with "/repo".
  - reflexivity.
  - vm_compute. reflexivity.
  - reflexivity.
  - vm_compute. reflexivity.
  - vm_compute. reflexivity.
  - vm_compute. reflexivity.
Defined.

(** C6, against the specification: for a rejected document the command
    echoes nothing, coloured or not, and does not end by [sys.exit(1)]. *)
Lemma invalid_json_params_not_reported :
  validate_json Demo.project_schema "{bad" = None
  /\ (demo_component_command "project_component" "fresh" (Some "{bad") []
        Demo.in_project).1 <> Exited 1
  /\ stdout (demo_component_command "project_component" "fresh" (Some "{bad") []
               Demo.in_project).2 = [].
Proof. vm_compute. by repeat split. Qed.

(** A hook that fails: the working directory is back where it was. *)
Lemma component_files_scoped_cwd_witness :
  cwd (demo_component_instance "/repo/components" "fresh"
         Demo.broken_component VNone Demo.in_project).2 = "/repo"
  /\ (demo_component_instance "/repo/components" "fresh"
        Demo.broken_component VNone Demo.in_project).1 = Raised "RuntimeError".
Proof.
  destruct (component_files_scoped_cwd Demo.module_dir Demo.copy_template
              Demo.plain_scalar "/repo/components" "fresh"
              Demo.broken_component VNone Demo.in_project
              (demo_copied "fresh" Demo.broken_component))
    as (_ & Hcwd & _ & _).
  - vm_compute. reflexivity.
  - split; [rewrite Hcwd | ]; vm_compute; reflexivity.
Defined.

(** Two dumps in a row on one stream, and the same descriptor emitted
    twice to one path. *)
Lemma descriptor_emission_idempotent_witness :
  flush (yaml_dump_to (D := ComponentDumper) Demo.plain_scalar false
           (component_data "project_component" VNone)
           (yaml_dump_to (D := ComponentDumper) Demo.plain_scalar false
              (component_data "project_component" VNone) []))
  = demo_dump (component_data "project_component" VNone)
    +:+ demo_dump (component_data "project_component" VNone)
  /\ write_text_file "components/existing/component.yaml"
       (demo_dump (component_data "project_component" VNone))
       (write_text_file "components/existing/component.yaml"
          (demo_dump (component_data "project_component" VNone))
          Demo.in_project).2
     = (Returned tt,
        (write_text_file "components/existing/component.yaml"
           (demo_dump (component_data "project_component" VNone))
           Demo.in_project).2).
Proof.
  destruct (descriptor_emission_idempotent Demo.plain_scalar
              (component_data "project_component" VNone)
              "components/existing/component.yaml" Demo.in_project
              (write_text_file "components/existing/component.yaml"
                 (demo_dump (component_data "project_component" VNone))
                 Demo.in_project).2)
    as (_ & _ & Htwice & Hagain & _).
  - vm_compute. reflexivity.
  - split; [exact Htwice | exact Hagain].
Defined.

(** Parameters that are present but falsy: the hook is called without
    argument, returns [None], and [params] is the empty mapping. *)
Lemma component_params_never_null_witness :
  call_generate_files Demo.project_component (VDict [])
  = generate_files Demo.project_component None
  /\ exists params,
       demo_component_instance "/repo/components" "fresh"
         Demo.project_component (VDict []) Demo.in_project
       = write_text_file "/repo/components/fresh/component.yaml"
           (demo_dump [("type", VStr "project_component"); ("params", params)])
           (set_cwd "/repo"
              (generate_files Demo.project_component None
                 (set_cwd "/repo/components/fresh"
                    (demo_copied "fresh" Demo.project_component))).2)
       /\ params = VDict [].
Proof.
  destruct (component_params_never_null Demo.module_dir Demo.copy_template
              Demo.plain_scalar "/repo/components" "fresh"
              Demo.project_component (VDict []) VNone Demo.in_project
              (demo_copied "fresh" Demo.project_component)
              (generate_files Demo.project_component None
                 (set_cwd "/repo/components/fresh"
                    (demo_copied "fresh" Demo.project_component))).2)
    as (Hcall & _ & params & Hrun & _ & _ & Hfalsy & _).
  - vm_compute. reflexivity.
  - vm_compute. reflexivity.
  - split; [exact Hcall |]. exists params. split; [exact Hrun |].
    by apply Hfalsy.
Defined.

(** C10, against the specification: a hook that returns a string.  The
    generator returns normally and [params] in [component.yaml] is that
    string, which is no mapping. *)
Lemma component_params_not_a_mapping :
  (demo_component_instance "/repo/components" "fresh" Demo.text_component
     VNone Demo.in_project).1 = Returned tt
  /\ fs (demo_component_instance "/repo/components" "fresh"
           Demo.text_component VNone Demo.in_project).2
       !! "/repo/components/fresh/component.yaml"
     = Some (File ("type: text_component" +:+ LF +:+ LF
                   +:+ "params: x" +:+ LF))
  /\ demo_dump [("type", VStr "text_component"); ("params", VStr "x")]
     = "type: text_component" +:+ LF +:+ LF +:+ "params: x" +:+ LF
  /\ is_mapping (VStr "x") = false.
Proof. vm_compute. by repeat split. Qed.

(** The run of the component command on a document the schema accepts. *)
Lemma generate_component_json_params_witness :
  (demo_component_command "project_component" "fresh" (Some Demo.jaffle_json)
     [] Demo.in_project).1 = Returned tt
  /\ fs (demo_component_command "project_component" "fresh"
           (Some Demo.jaffle_json) [] Demo.in_project).2
       !! "/repo/components/fresh/component.yaml"
     = Some (File (demo_dump
                     [("type", VStr "project_component");
                      ("params",
                       VDict [("project",
                               VDict [("project_dir", VStr "jaffle_shop")])])])).
Proof.
  destruct (generate_component_json_params Demo.module_dir Demo.copy_template
              Demo.plain_scalar Demo.registry
              (Demo.resolve_root "pyproject.toml")
              Demo.component_instances_root_path
              "project_component" "fresh" Demo.jaffle_json [] Demo.in_project
              (demo_copied "fresh" Demo.project_component)
              (generate_files Demo.project_component
                 (Some (VDict [("project_path", VStr "jaffle_shop")]))
                 (set_cwd "/repo/components/fresh"
                    (demo_copied "fresh" Demo.project_component))).2
              "/repo" Demo.project_component Demo.project_schema
              (VDict [("project_path", VStr "jaffle_shop")])
              (VDict [("project", VDict [("project_dir", VStr "jaffle_shop")])]))
    as (Hret & Hfile & _).
  - reflexivity.
  - vm_compute. reflexivity.
  - vm_compute. reflexivity.
  - vm_compute. reflexivity.
  - reflexivity.
  - vm_compute. reflexivity.
  - vm_compute. reflexivity.
  - vm_compute. reflexivity.
  - split; vm_compute; [discriminate | reflexivity].
  - split; [exact Hret | exact Hfile].
Defined.

(** C1, against the specification: the schema accepts the document, the
    command succeeds, and [params] in [component.yaml] is what the hook
    returned, which is not the parsed JSON; the file differs from the one
    with the parsed JSON under [params]. *)
Lemma component_yaml_params_not_parsed_json :
  validate_json Demo.project_schema Demo.jaffle_json
  = Some (VDict [("project_path", VStr "jaffle_shop")])
  /\ (demo_component_command "project_component" "fresh"
        (Some Demo.jaffle_json) [] Demo.in_project).1 = Returned tt
  /\ fs (demo_component_command "project_component" "fresh"
           (Some Demo.jaffle_json) [] Demo.in_project).2
       !! "/repo/components/fresh/component.yaml"
     = Some (File (demo_dump
                     [("type", VStr "project_component");
                      ("params",
                       VDict [("project",
                               VDict [("project_dir", VStr "jaffle_shop")])])]))
  /\ fs (demo_component_command "project_component" "fresh"
           (Some Demo.jaffle_json) [] Demo.in_project).2
       !! "/repo/components/fresh/component.yaml"
     <> Some (File (demo_dump
                      [("type", VStr "project_component");
                       ("params", VDict [("project_path", VStr "jaffle_shop")])])).
Proof. vm_compute. by repeat split. Qed.


(** [sort_keys=False] matters: sorted, [params] would come before [type]. *)
Example sorted_keys_would_reorder :
  yaml_dump Demo.plain_scalar (D := ComponentDumper) true
    (component_data "project_component" (VDict []))
  = "params: {}" +:+ LF +:+ LF +:+ "type: project_component" +:+ LF.
Proof. vm_compute. reflexivity. Qed.



(** A string key of 122 characters is a simple key; one of 123 is not:
    with the five characters of [!!str] the length reaches 128. *)
Example long_keys_are_not_simple :
  check_simple_key (Scalar tag_str (spaces 121 +:+ "k")) = true
  /\ check_simple_key (Scalar tag_str (spaces 122 +:+ "k")) = false.
Proof. vm_compute. by split. Qed.

(* ===================================================================== *)
(** * The further theorems at work *)
(* ===================================================================== *)

#[local] Abbreviation demo_code_location_command :=
  (generate_code_location_command Demo.module_dir Demo.copy_template
     (Demo.resolve_root "code_locations") Demo.code_location_root_path).

#[local] Abbreviation demo_component_type_command :=
  (generate_component_type_command Demo.module_dir dagster_utils.camelcase
     Demo.copy_template Demo.registry (Demo.resolve_root "pyproject.toml")
     Demo.component_types_root_path).

(** A free path: the copier is given [fresh], not [/repo/fresh]. *)
Lemma generate_deployment_free_path_witness :
  generate_deployment_command Demo.module_dir Demo.copy_template "fresh"
    Demo.in_project
  = Demo.copy_template
      {| pa_path := "fresh";
         pa_name_placeholder := "DEPLOYMENT_NAME_PLACEHOLDER";
         pa_templates_path :=
           "/site/dagster_components/templates/DEPLOYMENT_NAME_PLACEHOLDER";
         pa_project_name := None;
         pa_other_template_vars := [] |}
      (add_stdout "Creating a Dagster deployment at fresh." Demo.in_project).
Proof.
  apply (generate_deployment_free_path Demo.module_dir Demo.copy_template
           "fresh" Demo.in_project).
  - reflexivity.
  - vm_compute. reflexivity.
Defined.

(** The checks of the code-location command, one run for each. *)
Lemma generate_code_location_preconditions_witness :
  demo_code_location_command "beta" Demo.in_project
  = (Exited 1, add_stdout not_in_deployment_message Demo.in_project)
  /\ demo_code_location_command "alpha" Demo.in_deployment
     = (Exited 1,
        add_stdout (code_location_exists_message "alpha") Demo.in_deployment)
  /\ demo_code_location_command "beta" Demo.in_deployment
     = Demo.copy_template
         (code_location_project_args Demo.module_dir "/dep/code_locations/beta")
         (add_stdout (code_location_message "/dep/code_locations/beta")
            Demo.in_deployment).
Proof.
  split; [| split].
  - apply (generate_code_location_preconditions Demo.module_dir
             Demo.copy_template (Demo.resolve_root "code_locations")
             Demo.code_location_root_path "beta" Demo.in_project).
    + reflexivity.
    + vm_compute. reflexivity.
  - apply (generate_code_location_preconditions Demo.module_dir
             Demo.copy_template (Demo.resolve_root "code_locations")
             Demo.code_location_root_path "alpha" Demo.in_deployment)
      with "/dep".
    + reflexivity.
    + vm_compute. reflexivity.
    + vm_compute. reflexivity.
  - destruct (generate_code_location_preconditions Demo.module_dir
                Demo.copy_template (Demo.resolve_root "code_locations")
                Demo.code_location_root_path "beta" Demo.in_deployment
                eq_refl) as (_ & _ & Hfree).
    apply (Hfree "/dep"); vm_compute; reflexivity.
Defined.

(** The checks of the component-type command, one run for each. *)
Lemma generate_component_type_preconditions_witness :
  demo_component_type_command "widget" Demo.outside
  = (Exited 1, add_stdout not_in_code_location_message Demo.outside)
  /\ demo_component_type_command "project_component" Demo.in_project
     = (Exited 1,
        add_stdout (component_type_exists_message "project_component")
          Demo.in_project)
  /\ demo_component_type_command "widget" Demo.in_project
     = generate_component_type Demo.module_dir dagster_utils.camelcase
         Demo.copy_template "/repo/lib" "widget" Demo.in_project.
Proof.
  split; [| split].
  - apply (generate_component_type_preconditions Demo.module_dir dagster_utils.camelcase
             Demo.copy_template Demo.registry
             (Demo.resolve_root "pyproject.toml")
             Demo.component_types_root_path "widget" Demo.outside).
    + reflexivity.
    + vm_compute. reflexivity.
  - apply (generate_component_type_preconditions Demo.module_dir dagster_utils.camelcase
             Demo.copy_template Demo.registry
             (Demo.resolve_root "pyproject.toml")
             Demo.component_types_root_path "project_component" Demo.in_project)
      with "/repo" Demo.project_component.
    + reflexivity.
    + vm_compute. reflexivity.
    + reflexivity.
  - destruct (generate_component_type_preconditions Demo.module_dir
                dagster_utils.camelcase Demo.copy_template Demo.registry
                (Demo.resolve_root "pyproject.toml")
                Demo.component_types_root_path "widget" Demo.in_project
                eq_refl) as (_ & _ & Hfree).
    apply (Hfree "/repo"); vm_compute; reflexivity.
Defined.

(** A type without schema: a string that is no JSON is not even looked at. *)
Lemma json_params_ignored_without_schema_witness :
  demo_component_command "broken_component" "fresh" (Some "{bad") ["--flag"]
    Demo.in_project
  = demo_component_command "broken_component" "fresh" None [] Demo.in_project.
Proof.
  apply (json_params_ignored_without_schema Demo.module_dir Demo.copy_template
           Demo.plain_scalar Demo.registry (Demo.resolve_root "pyproject.toml")
           Demo.component_instances_root_path
           "broken_component" "fresh" (Some "{bad") ["--flag"] Demo.in_project
           Demo.broken_component).
  - vm_compute. reflexivity.
  - reflexivity.
Defined.


(** An installation without templates: the copier raises and that is all. *)
Lemma generate_component_instance_copier_fails_witness :
  generate_component_instance "/nowhere" Demo.copy_template Demo.plain_scalar
    "/repo/components" "fresh" Demo.project_component VNone Demo.in_project
  = (Raised "TemplateMissingError",
     add_stdout (component_instance_message "/repo/components" "fresh")
       Demo.in_project).
Proof.
  apply (generate_component_instance_copier_fails "/nowhere" Demo.copy_template
           Demo.plain_scalar "/repo/components" "fresh" Demo.project_component
           VNone Demo.in_project).
  - vm_compute. reflexivity.
  - discriminate.
Defined.

(** A normal return of the component command, and what it left. *)
Lemma generate_component_success_witness :
  exists root cls params,
    Demo.resolve_root "pyproject.toml" (fs Demo.in_project)
      (os_path_abspath (cwd Demo.in_project) ".") = Some root
    /\ Demo.registry !! "project_component" = Some cls
    /\ params <> VNone
    /\ fs (demo_component_command "project_component" "fresh" (Some "{}") []
             Demo.in_project).2
         !! os_path_abspath "/repo"
              (os_path_join
                 (os_path_join
                    (Demo.component_instances_root_path
                       {| cl_root_path := root;
                          cl_component_registry := Demo.registry |}) "fresh")
                 "component.yaml")
       = Some (File (demo_dump [("type", VStr (get_component_name cls));
                                ("params", params)])).
Proof.
  destruct (generate_component_success Demo.module_dir Demo.copy_template
              Demo.plain_scalar Demo.registry
              (Demo.resolve_root "pyproject.toml")
              Demo.component_instances_root_path
              "project_component" "fresh" (Some "{}") [] Demo.in_project
              (demo_component_command "project_component" "fresh" (Some "{}")
                 [] Demo.in_project).2)
    as (root & cls & params & Hroot & Hty & _ & Hparams & Hfile).
  - reflexivity.
  - vm_compute. reflexivity.
  - exists root, cls, params. repeat split; try done.
Defined.

(** Three top-level entries, an empty line between every two. *)
Lemma top_level_entries_spaced_witness :
  demo_dump [("retries", VInt 3);
             ("project", VDict [("project_dir", VStr "jaffle_shop")]);
             ("tags", VList [])]
  = "retries: 3" +:+ LF +:+ LF
    +:+ "project:" +:+ LF +:+ "  project_dir: jaffle_shop" +:+ LF +:+ LF
    +:+ "tags: []" +:+ LF.
Proof.
  destruct (top_level_entries_spaced Demo.plain_scalar
              [("retries", VInt 3);
               ("project", VDict [("project_dir", VStr "jaffle_shop")]);
               ("tags", VList [])]) as [-> _].
  - discriminate.
  - repeat (constructor;
              [split; [reflexivity | intros items Heq; by inversion Heq] |]).
    constructor.
  - vm_compute. reflexivity.
Defined.

(** A list under [params]: an empty line before every item. *)
Lemma top_level_list_items_spaced_witness :
  demo_dump (component_data "project_component" (VList [VInt 1; VStr "two"]))
  = "type: project_component" +:+ LF +:+ LF
    +:+ "params:" +:+ LF +:+ LF +:+ "- 1" +:+ LF +:+ LF +:+ "- two" +:+ LF.
Proof.
  destruct (top_level_list_items_spaced Demo.plain_scalar "project_component"
              [VInt 1; VStr "two"]) as [-> _].
  - discriminate.
  - repeat (constructor; [by eexists |]). constructor.
  - vm_compute. reflexivity.
Defined.

(** A sequence of a mapping, two levels down. *)
Lemma ComponentDumper_as_stock_below_top_witness :
  expect_node Demo.plain_scalar (D := ComponentDumper) true false
    (NSequence [NMapping [(Scalar tag_str "a", NScalar (Scalar tag_int "1"))];
                NScalar (Scalar tag_str "b")])
    (MkEmitter (Some 2%nat) 4 false false [])
  = expect_node Demo.plain_scalar (D := yaml_Dumper) true false
      (NSequence [NMapping [(Scalar tag_str "a", NScalar (Scalar tag_int "1"))];
                  NScalar (Scalar tag_str "b")])
      (MkEmitter (Some 2%nat) 4 false false []).
Proof.
  apply (ComponentDumper_as_stock_below_top Demo.plain_scalar) with 1%nat.
  reflexivity.
Defined.
